(** * Dynamic viewport, scissor and stencil state of the Intel ICD

    A shallow embedding of [icd/intel/state.c]: the guardband calculator
    [viewport_get_guardband], the layout planner [viewport_state_cmd], the
    encoder [set_viewport_state] and the three stencil setters, followed by
    the properties the specification states about them. *)

From Stdlib Require Import ZArith Lia Bool List.
From Stdlib Require Import Floats.SpecFloat.
From stdpp Require Import base list.

Local Open Scope Z_scope.

(** ** Machine integers

    The C types are kept as [Z] with the conversions written out.  The C
    standard leaves signed overflow undefined; the embedding takes the
    two's-complement result, which is what the supported targets compute
    when the operation is carried out at run time. *)
Module CInt.

Definition INT_MIN : Z := - 2 ^ 31.
Definition INT_MAX : Z := 2 ^ 31 - 1.
Definition UINT32_MAX : Z := 2 ^ 32 - 1.

(** Conversion to [int]: reduction modulo 2^32 into [INT_MIN, INT_MAX]. *)
Definition to_int (z : Z) : Z := (z + 2 ^ 31) mod 2 ^ 32 - 2 ^ 31.

(** Conversion to [uint32_t]. *)
Definition to_uint32 (z : Z) : Z := z mod 2 ^ 32.

(** Conversion to [int16_t]. *)
Definition to_int16 (z : Z) : Z := (z + 2 ^ 15) mod 2 ^ 16 - 2 ^ 15.

Definition int_add (a b : Z) : Z := to_int (a + b).
Definition int_sub (a b : Z) : Z := to_int (a - b).
Definition int_neg (a : Z) : Z := to_int (- a).

Definition u32_add (a b : Z) : Z := to_uint32 (a + b).
Definition u32_mul (a b : Z) : Z := to_uint32 (a * b).

End CInt.
Import CInt.

(** ** Single-precision floats

    A [float] is kept as its 32-bit pattern (sign in bit 31, biased
    exponent in bits 30 to 23, fraction in bits 22 to 0), so that a NaN
    keeps its sign and payload and the bit-cast [u_fui] is exact.  The
    value of a pattern and the arithmetic on values are IEEE-754 binary32,
    taken from the Standard Library's executable specification of binary
    floating point at precision 24 and maximal exponent 128. *)
Module F32.

Definition prec : Z := 24.
Definition emax : Z := 128.

Record float : Type := { bits : Z }.

Definition sign_of (f : float) : bool := Z.testbit (bits f) 31.
Definition exponent_of (f : float) : Z := (bits f / 2 ^ 23) mod 2 ^ 8.
Definition fraction_of (f : float) : Z := bits f mod 2 ^ 23.

(** The value that a pattern denotes: zeros and subnormals at exponent 0,
    infinities and NaNs at exponent 255, normal numbers in between. *)
Definition value (f : float) : spec_float :=
  let s := sign_of f in
  let e := exponent_of f in
  let m := fraction_of f in
  if e =? 0 then
    match m with
    | Z.pos p => S754_finite s p (-149)
    | _ => S754_zero s
    end
  else if e =? 255 then
    if m =? 0 then S754_infinity s else S754_nan
  else S754_finite s (Z.to_pos (m + 2 ^ 23)) (e - 150).

Definition is_nan (f : float) : bool :=
  (exponent_of f =? 255) && negb (fraction_of f =? 0).

(** The quiet NaN of a given sign and 22-bit payload. *)
Definition quiet_nan (s : bool) (payload : Z) : float :=
  {| bits := (if s then 2 ^ 31 else 0) + 255 * 2 ^ 23 + 2 ^ 22 +
             payload mod 2 ^ 22 |}.

(** The pattern of a value in the canonical form that the operations of
    the library return; [nan] is the sign and payload to use if the value
    is a NaN. *)
Definition of_value (nan : bool * Z) (v : spec_float) : float :=
  match v with
  | S754_zero s => {| bits := if s then 2 ^ 31 else 0 |}
  | S754_infinity s => {| bits := (if s then 2 ^ 31 else 0) + 255 * 2 ^ 23 |}
  | S754_nan => quiet_nan (fst nan) (snd nan)
  | S754_finite s m e =>
      {| bits := (if s then 2 ^ 31 else 0) +
                 (if Z.pos m <? 2 ^ 23 then Z.pos m
                  else (e + 150) * 2 ^ 23 + (Z.pos m - 2 ^ 23)) |}
  end.

(** The arithmetic operations of the file: [+], [-] and [/] on [float]. *)
Inductive arith : Type := op_add | op_sub | op_div.

Definition arith_value (op : arith) : spec_float -> spec_float -> spec_float :=
  match op with
  | op_add => SFadd prec emax
  | op_sub => SFsub prec emax
  | op_div => SFdiv prec emax
  end.

(** An operation on patterns: the IEEE-754 result of the values; where
    that is a NaN, the quiet NaN whose sign and payload [nan] gives. *)
Definition arith_op (nan : arith -> float -> float -> bool * Z)
    (op : arith) (a b : float) : float :=
  of_value (nan op a b) (arith_value op (value a) (value b)).

(** [fabsf] clears the sign bit. *)
Definition fabsf (f : float) : float :=
  {| bits := Z.land (bits f) (2 ^ 31 - 1) |}.

(** The conversion [(float) i] of an integer, rounding to nearest even;
    the result is never a NaN. *)
Definition float_of_int (i : Z) : float :=
  of_value (false, 0) (binary_normalize prec emax i 0 false).

(** The conversion [(int) f]: truncation toward zero.  C leaves the
    conversion undefined for NaN, the infinities and values outside [int];
    the embedding returns [INT_MIN] there, the result of the x86
    conversion instruction. *)
Definition int_of_float (f : float) : Z :=
  match value f with
  | S754_zero _ => 0
  | S754_finite s m e =>
      let mag := Z.shiftl (Z.pos m) e in
      let v := if s then - mag else mag in
      if (INT_MIN <=? v) && (v <=? INT_MAX) then v else INT_MIN
  | _ => INT_MIN
  end.

(** [u_fui]: the bit-cast of a [float] to a 32-bit unsigned integer,
    through a union in a utility header: the pattern itself, for a NaN as
    for any other value. *)
Definition u_fui (f : float) : Z := bits f.

(** The NaN rule of the x86 SSE instructions: a NaN operand is returned
    with its quiet bit set, the first one if both are NaNs; an invalid
    operation on numbers returns the negative default NaN [0xffc00000]. *)
Definition sse_nan (op : arith) (a b : float) : bool * Z :=
  if is_nan a then (sign_of a, fraction_of a)
  else if is_nan b then (sign_of b, fraction_of b)
  else (true, 0).

End F32.
Import F32.

(** ** Outcomes

    The functions abort on a failed assertion (the assertions are taken as
    compiled in); a read or write outside an array is reported as
    [out_of_bounds]. *)
Inductive failure : Type :=
| gpu_assert        (* INTEL_GPU_ASSERT(gpu, 6, 7.5) *)
| count_assert      (* assert(count <= INTEL_MAX_VIEWPORTS) *)
| capacity_assert   (* assert(sizeof(uint32_t) * cmd_len <= sizeof(cmd)) *)
| out_of_bounds.

Inductive result (A : Type) : Type :=
| Ok (a : A)
| Err (e : failure).
Arguments Ok {A} a.
Arguments Err {A} e.

Definition bind {A B : Type} (m : result A) (k : A -> result B) : result B :=
  match m with
  | Ok a => k a
  | Err e => Err e
  end.

Notation "'do' x <- m ; k" := (bind m (fun x => k))
  (at level 10, x name, m at level 100, k at level 200).
Notation "'check' m ; k" := (bind m (fun _ => k))
  (at level 10, m at level 100, k at level 200).

Definition assert (b : bool) (e : failure) : result unit :=
  if b then Ok tt else Err e.

(** ** Data *)

(** [struct intel_gpu], of which the file reads the generation only
    (through [intel_gpu_gen]). *)
Record intel_gpu : Type := { gen : Z }.

Definition intel_gpu_gen (gpu : intel_gpu) : Z := gen gpu.

(** [VkViewport].
    Modelled from the spec: [vulkan.h] is absent; the fields are the ones
    the encoder reads, all of type [float]. *)
Record VkViewport : Type := {
  originX : float;
  originY : float;
  width : float;
  height : float;
  minDepth : float;
  maxDepth : float
}.

(** [VkRect2D], an integer offset and extent.
    Modelled from the spec: [vulkan.h] is absent; the four fields are 32-bit
    integers. *)
Record VkOffset2D : Type := { x : Z; y : Z }.
Record VkExtent2D : Type := { ext_width : Z; ext_height : Z }.
Record VkRect2D : Type := { offset : VkOffset2D; extent : VkExtent2D }.

(** [struct intel_dynamic_viewport]: the viewport count, the word buffer
    [cmd] and the bookkeeping of its four sub-blocks. *)
Record intel_dynamic_viewport : Type := {
  viewport_count : Z;
  cmd : list Z;
  cmd_len : Z;
  cmd_clip_pos : Z;
  cmd_cc_pos : Z;
  cmd_scissor_rect_pos : Z
}.

(** [struct intel_dynamic_stencil]: three values for each face. *)
Record intel_dynamic_stencil_face : Type := {
  stencil_compare_mask : Z;
  stencil_write_mask : Z;
  stencil_reference : Z
}.

Record intel_dynamic_stencil : Type := {
  front : intel_dynamic_stencil_face;
  back : intel_dynamic_stencil_face
}.

(** [struct intel_cmd], reduced to what the file reaches through it:
    [cmd->dev->gpu], [cmd->bind.state.viewport] and
    [cmd->bind.state.stencil]. *)
Record intel_cmd : Type := {
  dev_gpu : intel_gpu;
  bind_state_viewport : intel_dynamic_viewport;
  bind_state_stencil : intel_dynamic_stencil
}.

(** Assignments to single fields. *)
Definition set_viewport_count (s : intel_dynamic_viewport) (v : Z) :=
  {| viewport_count := v; cmd := cmd s; cmd_len := cmd_len s;
     cmd_clip_pos := cmd_clip_pos s; cmd_cc_pos := cmd_cc_pos s;
     cmd_scissor_rect_pos := cmd_scissor_rect_pos s |}.

Definition set_cmd (s : intel_dynamic_viewport) (v : list Z) :=
  {| viewport_count := viewport_count s; cmd := v; cmd_len := cmd_len s;
     cmd_clip_pos := cmd_clip_pos s; cmd_cc_pos := cmd_cc_pos s;
     cmd_scissor_rect_pos := cmd_scissor_rect_pos s |}.

Definition set_cmd_len (s : intel_dynamic_viewport) (v : Z) :=
  {| viewport_count := viewport_count s; cmd := cmd s; cmd_len := v;
     cmd_clip_pos := cmd_clip_pos s; cmd_cc_pos := cmd_cc_pos s;
     cmd_scissor_rect_pos := cmd_scissor_rect_pos s |}.

Definition set_cmd_clip_pos (s : intel_dynamic_viewport) (v : Z) :=
  {| viewport_count := viewport_count s; cmd := cmd s; cmd_len := cmd_len s;
     cmd_clip_pos := v; cmd_cc_pos := cmd_cc_pos s;
     cmd_scissor_rect_pos := cmd_scissor_rect_pos s |}.

Definition set_cmd_cc_pos (s : intel_dynamic_viewport) (v : Z) :=
  {| viewport_count := viewport_count s; cmd := cmd s; cmd_len := cmd_len s;
     cmd_clip_pos := cmd_clip_pos s; cmd_cc_pos := v;
     cmd_scissor_rect_pos := cmd_scissor_rect_pos s |}.

Definition set_cmd_scissor_rect_pos (s : intel_dynamic_viewport) (v : Z) :=
  {| viewport_count := viewport_count s; cmd := cmd s; cmd_len := cmd_len s;
     cmd_clip_pos := cmd_clip_pos s; cmd_cc_pos := cmd_cc_pos s;
     cmd_scissor_rect_pos := v |}.

Definition set_bind_state_viewport (c : intel_cmd) (v : intel_dynamic_viewport) :=
  {| dev_gpu := dev_gpu c; bind_state_viewport := v;
     bind_state_stencil := bind_state_stencil c |}.

Definition set_bind_state_stencil (c : intel_cmd) (v : intel_dynamic_stencil) :=
  {| dev_gpu := dev_gpu c; bind_state_viewport := bind_state_viewport c;
     bind_state_stencil := v |}.

(** The write [dw[k] = v] into the word buffer and the read [a[i]] of an
    input array. *)
Definition store (buf : list Z) (p : Z) (v : Z) : result (list Z) :=
  if (0 <=? p) && (p <? Z.of_nat (length buf))
  then Ok (<[Z.to_nat p := v]> buf)
  else Err out_of_bounds.

Definition fetch {A : Type} (a : list A) (i : Z) : result A :=
  match a !! Z.to_nat i with
  | Some v => Ok v
  | None => Err out_of_bounds
  end.

(** The pointers of the first loop of [set_viewport_state], as offsets into
    [state->cmd], together with the buffer they point into. *)
Record viewport_cursor : Type := {
  buf : list Z;
  sf_viewport : Z;
  clip_viewport : Z;
  cc_viewport : Z
}.

(** ** Sample inputs

    A GPU of generation 7 and one of generation 6 (with [INTEL_GEN(7)] taken
    as 700), a state holder whose buffer has room for sixteen viewports, and
    the descriptors of the specification's examples. *)

Definition sample_gpu7 : intel_gpu := {| gen := 700 |}.
Definition sample_gpu6 : intel_gpu := {| gen := 600 |}.

Definition sample_state : intel_dynamic_viewport :=
  {| viewport_count := 0; cmd := replicate 320 0; cmd_len := 0;
     cmd_clip_pos := 0; cmd_cc_pos := 0; cmd_scissor_rect_pos := 0 |}.

Definition sample_face : intel_dynamic_stencil_face :=
  {| stencil_compare_mask := 0; stencil_write_mask := 0;
     stencil_reference := 0 |}.

Definition sample_cmd : intel_cmd :=
  {| dev_gpu := sample_gpu7; bind_state_viewport := sample_state;
     bind_state_stencil := {| front := sample_face; back := sample_face |} |}.

(** The viewport [{origin = (0, 0), extent = (800, 600), depth = (0, 1)}]. *)
Definition sample_viewport : VkViewport :=
  {| originX := float_of_int 0; originY := float_of_int 0;
     width := float_of_int 800; height := float_of_int 600;
     minDepth := float_of_int 0; maxDepth := float_of_int 1 |}.

(** A viewport of width zero at [x = -32768] whose depth bounds are both
    [+inf]: [maxDepth - minDepth] is [inf - inf], and the guardband is
    pinned to start at the translation, so that the first CLIP word is
    [0 / 0]. *)
Definition flat_viewport : VkViewport :=
  {| originX := float_of_int (-32768); originY := float_of_int 0;
     width := float_of_int 0; height := float_of_int 600;
     minDepth := {| bits := 0x7F800000 |};
     maxDepth := {| bits := 0x7F800000 |} |}.

(** A viewport whose [minDepth] is the signalling NaN [0x7fa00001]. *)
Definition nan_viewport : VkViewport :=
  {| originX := float_of_int 0; originY := float_of_int 0;
     width := float_of_int 800; height := float_of_int 600;
     minDepth := {| bits := 0x7FA00001 |}; maxDepth := float_of_int 1 |}.

(** The scissor [{offset = (10, 20), extent = (100, 50)}]. *)
Definition sample_scissor : VkRect2D :=
  {| offset := {| x := 10; y := 20 |};
     extent := {| ext_width := 100; ext_height := 50 |} |}.

(** A scissor of width zero. *)
Definition empty_scissor : VkRect2D :=
  {| offset := {| x := 5; y := 7 |};
     extent := {| ext_width := 0; ext_height := 50 |} |}.

(** The scissor [{offset = (0, 0), extent = (40000, 100)}], whose [max_x]
    is 39999, above [INT16_MAX]. *)
Definition wide_scissor : VkRect2D :=
  {| offset := {| x := 0; y := 0 |};
     extent := {| ext_width := 40000; ext_height := 100 |} |}.

Section Genhw.

(** [INTEL_GEN(6)], [INTEL_GEN(7)] and [INTEL_GEN(7.5)]: values of a macro
    of [genhw/genhw.h], and [INTEL_MAX_VIEWPORTS], the hardware's maximum
    viewport count.  The headers are absent, so the four constants are
    parameters of the development. *)
Variable INTEL_GEN_6 : Z.
Variable INTEL_GEN_7 : Z.
Variable INTEL_GEN_7_5 : Z.
Variable INTEL_MAX_VIEWPORTS : Z.

(** The NaN that an arithmetic operation returns.  IEEE 754 makes the
    result of an invalid operation, or of an operation on a NaN, a quiet
    NaN and leaves its sign and payload to the implementation; C fixes
    neither.  The choice of the target is a parameter of the development:
    the sign and the payload, by operation and operands. *)
Variable fp_nan : arith -> float -> float -> bool * Z.

Definition fadd : float -> float -> float := arith_op fp_nan op_add.
Definition fsub : float -> float -> float := arith_op fp_nan op_sub.
Definition fdiv : float -> float -> float := arith_op fp_nan op_div.

(** [INTEL_GPU_ASSERT(gpu, 6, 7.5)].
    Modelled from the spec: the macro is absent; the generation must lie
    in the supported range, generations 6 through 7.5 inclusive, and any
    other value is fatal. *)
Definition INTEL_GPU_ASSERT (gpu : intel_gpu) : result unit :=
  assert ((INTEL_GEN_6 <=? intel_gpu_gen gpu) &&
          (intel_gpu_gen gpu <=? INTEL_GEN_7_5)) gpu_assert.

(** [sizeof(state->cmd)] in words and in bytes.
    Modelled from the spec: the declaration of the buffer is absent; it is
    sized to the worst-case encoding for the maximum viewport count and the
    larger-layout generation, that is 16 + 2 + 2 words for each viewport. *)
Definition CMD_WORDS : Z := INTEL_MAX_VIEWPORTS * (16 + 2 + 2).
Definition sizeof_uint32 : Z := 4.
Definition sizeof_cmd : Z := sizeof_uint32 * CMD_WORDS.

(** *** The guardband calculator *)

(** Lines 77-80 and 82-85 of the source: the same statement on each axis. *)
Definition clamp_center (max_extent half_len center : Z) : Z :=
  if int_sub center half_len <? int_neg max_extent then
    int_add (int_neg max_extent) half_len
  else if int_sub max_extent 1 <? int_add center half_len then
    int_sub max_extent half_len
  else center.

Definition max_extent_of (gpu : intel_gpu) : Z :=
  if INTEL_GEN_7 <=? intel_gpu_gen gpu then 32768 else 16384.

(** The four results [( *min_gbx, *max_gbx, *min_gby, *max_gby )]; each
    is computed in [int], converted to [float] and stored into an [int]. *)
Definition viewport_get_guardband (gpu : intel_gpu) (center_x center_y : Z)
  : Z * Z * Z * Z :=
  let max_extent := max_extent_of gpu in
  let half_len := 8192 / 2 in
  let center_x := clamp_center max_extent half_len center_x in
  let center_y := clamp_center max_extent half_len center_y in
  (int_of_float (float_of_int (int_sub center_x half_len)),
   int_of_float (float_of_int (int_add center_x half_len)),
   int_of_float (float_of_int (int_sub center_y half_len)),
   int_of_float (float_of_int (int_add center_y half_len))).

(** *** The layout planner *)
Definition viewport_state_cmd (state : intel_dynamic_viewport)
    (gpu : intel_gpu) (count : Z) : result intel_dynamic_viewport :=
  check INTEL_GPU_ASSERT gpu ;
  let state := set_viewport_count state count in
  check assert (count <=? INTEL_MAX_VIEWPORTS) count_assert ;
  let state :=
    if INTEL_GEN_7 <=? intel_gpu_gen gpu then
      let state := set_cmd_len state (u32_mul 16 count) in
      set_cmd_clip_pos state 8
    else
      let state := set_cmd_len state (u32_mul 8 count) in
      let state := set_cmd_clip_pos state (cmd_len state) in
      set_cmd_len state (u32_add (cmd_len state) (u32_mul 4 count)) in
  let state := set_cmd_cc_pos state (cmd_len state) in
  let state := set_cmd_len state (u32_add (cmd_len state) (u32_mul 2 count)) in
  let state := set_cmd_scissor_rect_pos state (cmd_len state) in
  let state := set_cmd_len state (u32_add (cmd_len state) (u32_mul 2 count)) in
  check assert (sizeof_uint32 * cmd_len state <=? sizeof_cmd) capacity_assert ;
  Ok state.

(** *** The encoder *)

(** The literal [2.0f]. *)
Definition f_2_0 : float := float_of_int 2.

(** The left shift [a << n] on [int]. *)
Definition int_shl (a n : Z) : Z := to_int (Z.shiftl a n).

(** The body of the loop over the viewports (lines 148-187). *)
Definition viewport_body (gpu : intel_gpu) (sf_stride clip_stride : Z)
    (viewport : VkViewport) (p : viewport_cursor) : result viewport_cursor :=
  let scale0 := fdiv (width viewport) f_2_0 in
  let scale1 := fdiv (height viewport) f_2_0 in
  let scale2 := fsub (maxDepth viewport) (minDepth viewport) in
  let translate0 := fadd (originX viewport) scale0 in
  let translate1 := fadd (originY viewport) scale1 in
  let translate2 := minDepth viewport in
  let '(min_gbx, max_gbx, min_gby, max_gby) :=
    viewport_get_guardband gpu
      (int_of_float translate0) (int_of_float translate1) in
  (* SF_VIEWPORT *)
  let dw := sf_viewport p in
  do b <- store (buf p) (dw + 0) (u_fui scale0) ;
  do b <- store b (dw + 1) (u_fui scale1) ;
  do b <- store b (dw + 2) (u_fui scale2) ;
  do b <- store b (dw + 3) (u_fui translate0) ;
  do b <- store b (dw + 4) (u_fui translate1) ;
  do b <- store b (dw + 5) (u_fui translate2) ;
  do b <- store b (dw + 6) 0 ;
  do b <- store b (dw + 7) 0 ;
  let sf_viewport' := sf_viewport p + sf_stride in
  (* CLIP_VIEWPORT *)
  let dw := clip_viewport p in
  do b <- store b (dw + 0)
            (u_fui (fdiv (fsub (float_of_int min_gbx) translate0) (fabsf scale0))) ;
  do b <- store b (dw + 1)
            (u_fui (fdiv (fsub (float_of_int max_gbx) translate0) (fabsf scale0))) ;
  do b <- store b (dw + 2)
            (u_fui (fdiv (fsub (float_of_int min_gby) translate1) (fabsf scale1))) ;
  do b <- store b (dw + 3)
            (u_fui (fdiv (fsub (float_of_int max_gby) translate1) (fabsf scale1))) ;
  let clip_viewport' := clip_viewport p + clip_stride in
  (* CC_VIEWPORT *)
  let dw := cc_viewport p in
  do b <- store b (dw + 0) (u_fui (minDepth viewport)) ;
  do b <- store b (dw + 1) (u_fui (maxDepth viewport)) ;
  let cc_viewport' := cc_viewport p + 2 in
  Ok {| buf := b; sf_viewport := sf_viewport';
        clip_viewport := clip_viewport'; cc_viewport := cc_viewport' |}.

(** [for (i = 0; i < count; i++)] over the viewports: [n] iterations are
    left to run, starting at index [i]. *)
Fixpoint viewport_loop (gpu : intel_gpu) (sf_stride clip_stride : Z)
    (viewports : list VkViewport) (n : nat) (i : Z) (p : viewport_cursor)
  : result viewport_cursor :=
  match n with
  | O => Ok p
  | S n' =>
      do viewport <- fetch viewports i ;
      do p <- viewport_body gpu sf_stride clip_stride viewport p ;
      viewport_loop gpu sf_stride clip_stride viewports n' (i + 1) p
  end.

(** The two [int16_t] locals [max_x] and [max_y] (lines 196-197). *)
Definition scissor_max_x (scissor : VkRect2D) : Z :=
  to_int16 (Z.land
    (int_sub (int_add (x (offset scissor)) (ext_width (extent scissor))) 1)
    0xffff).

Definition scissor_max_y (scissor : VkRect2D) : Z :=
  to_int16 (Z.land
    (int_sub (int_add (y (offset scissor)) (ext_height (extent scissor))) 1)
    0xffff).

(** The body of the loop over the scissors (lines 191-208); the result is
    the buffer and the advanced pointer [scissor_rect]. *)
Definition scissor_body (scissor : VkRect2D) (b : list Z) (scissor_rect : Z)
  : result (list Z * Z) :=
  let max_x := scissor_max_x scissor in
  let max_y := scissor_max_y scissor in
  let dw := scissor_rect in
  do b <-
    (if negb (ext_width (extent scissor) =? 0) &&
        negb (ext_height (extent scissor) =? 0)
     then
       do b <- store b (dw + 0)
                 (to_uint32 (Z.lor (int_shl (Z.land (y (offset scissor)) 0xffff) 16)
                                   (Z.land (x (offset scissor)) 0xffff))) ;
       store b (dw + 1) (to_uint32 (Z.lor (int_shl max_y 16) max_x))
     else
       do b <- store b (dw + 0) (to_uint32 (Z.lor (int_shl 1 16) 1)) ;
       store b (dw + 1) 0) ;
  Ok (b, scissor_rect + 2).

(** The two words [dw[0]] and [dw[1]] that the body stores for a scissor. *)
Definition scissor_words (scissor : VkRect2D) : Z * Z :=
  if negb (ext_width (extent scissor) =? 0) &&
     negb (ext_height (extent scissor) =? 0)
  then
    (to_uint32 (Z.lor (int_shl (Z.land (y (offset scissor)) 0xffff) 16)
                      (Z.land (x (offset scissor)) 0xffff)),
     to_uint32 (Z.lor (int_shl (scissor_max_y scissor) 16)
                      (scissor_max_x scissor)))
  else
    (to_uint32 (Z.lor (int_shl 1 16) 1), 0).

Fixpoint scissor_loop (scissors : list VkRect2D) (n : nat) (i : Z)
    (b : list Z) (scissor_rect : Z) : result (list Z * Z) :=
  match n with
  | O => Ok (b, scissor_rect)
  | S n' =>
      do scissor <- fetch scissors i ;
      do r <- scissor_body scissor b scissor_rect ;
      scissor_loop scissors n' (i + 1) (fst r) (snd r)
  end.

Definition set_viewport_state (c : intel_cmd) (count : Z)
    (viewports : list VkViewport) (scissors : list VkRect2D)
  : result intel_cmd :=
  let gpu := dev_gpu c in
  let state := bind_state_viewport c in
  let sf_stride := if INTEL_GEN_7 <=? intel_gpu_gen gpu then 16 else 8 in
  let clip_stride := if INTEL_GEN_7 <=? intel_gpu_gen gpu then 16 else 4 in
  check INTEL_GPU_ASSERT gpu ;
  do state <- viewport_state_cmd state gpu count ;
  let p := {| buf := cmd state; sf_viewport := 0;
              clip_viewport := cmd_clip_pos state;
              cc_viewport := cmd_cc_pos state |} in
  let scissor_rect := cmd_scissor_rect_pos state in
  do p <- viewport_loop gpu sf_stride clip_stride viewports
            (Z.to_nat count) 0 p ;
  do r <- scissor_loop scissors (Z.to_nat count) 0 (buf p) scissor_rect ;
  Ok (set_bind_state_viewport c (set_cmd state (fst r))).

Definition vkCmdSetViewport (cmdBuffer : intel_cmd)
    (viewportAndScissorCount : Z) (pViewports : list VkViewport)
    (pScissors : list VkRect2D) : result intel_cmd :=
  set_viewport_state cmdBuffer viewportAndScissorCount pViewports pScissors.

(** *** The stencil setters *)

(** [VK_STENCIL_FACE_FRONT_BIT] and [VK_STENCIL_FACE_BACK_BIT], constants of
    the absent [vulkan.h]. *)
Variable VK_STENCIL_FACE_FRONT_BIT : Z.
Variable VK_STENCIL_FACE_BACK_BIT : Z.

Definition set_stencil_compare_mask (f : intel_dynamic_stencil_face) (v : Z) :=
  {| stencil_compare_mask := v; stencil_write_mask := stencil_write_mask f;
     stencil_reference := stencil_reference f |}.

Definition set_stencil_write_mask (f : intel_dynamic_stencil_face) (v : Z) :=
  {| stencil_compare_mask := stencil_compare_mask f; stencil_write_mask := v;
     stencil_reference := stencil_reference f |}.

Definition set_stencil_reference (f : intel_dynamic_stencil_face) (v : Z) :=
  {| stencil_compare_mask := stencil_compare_mask f;
     stencil_write_mask := stencil_write_mask f; stencil_reference := v |}.

Definition set_front (s : intel_dynamic_stencil) (f : intel_dynamic_stencil_face) :=
  {| front := f; back := back s |}.

Definition set_back (s : intel_dynamic_stencil) (f : intel_dynamic_stencil_face) :=
  {| front := front s; back := f |}.

(** The test [if (faceMask & bit)]. *)
Definition face_selected (faceMask bit : Z) : bool :=
  negb (Z.land faceMask bit =? 0).

Definition vkCmdSetStencilCompareMask (cmdBuffer : intel_cmd)
    (faceMask stencilCompareMask : Z) : intel_cmd :=
  let c := cmdBuffer in
  let c :=
    if face_selected faceMask VK_STENCIL_FACE_FRONT_BIT then
      set_bind_state_stencil c
        (set_front (bind_state_stencil c)
           (set_stencil_compare_mask (front (bind_state_stencil c))
              stencilCompareMask))
    else c in
  let c :=
    if face_selected faceMask VK_STENCIL_FACE_BACK_BIT then
      set_bind_state_stencil c
        (set_back (bind_state_stencil c)
           (set_stencil_compare_mask (back (bind_state_stencil c))
              stencilCompareMask))
    else c in
  c.

Definition vkCmdSetStencilWriteMask (cmdBuffer : intel_cmd)
    (faceMask stencilWriteMask : Z) : intel_cmd :=
  let c := cmdBuffer in
  let c :=
    if face_selected faceMask VK_STENCIL_FACE_FRONT_BIT then
      set_bind_state_stencil c
        (set_front (bind_state_stencil c)
           (set_stencil_write_mask (front (bind_state_stencil c))
              stencilWriteMask))
    else c in
  let c :=
    if face_selected faceMask VK_STENCIL_FACE_BACK_BIT then
      set_bind_state_stencil c
        (set_back (bind_state_stencil c)
           (set_stencil_write_mask (back (bind_state_stencil c))
              stencilWriteMask))
    else c in
  c.

Definition vkCmdSetStencilReference (cmdBuffer : intel_cmd)
    (faceMask stencilReference : Z) : intel_cmd :=
  let c := cmdBuffer in
  let c :=
    if face_selected faceMask VK_STENCIL_FACE_FRONT_BIT then
      set_bind_state_stencil c
        (set_front (bind_state_stencil c)
           (set_stencil_reference (front (bind_state_stencil c))
              stencilReference))
    else c in
  let c :=
    if face_selected faceMask VK_STENCIL_FACE_BACK_BIT then
      set_bind_state_stencil c
        (set_back (bind_state_stencil c)
           (set_stencil_reference (back (bind_state_stencil c))
              stencilReference))
    else c in
  c.

(** ** The specification's formulations

    Definitions that follow the words of the specification; the theorems
    below compare them with the functions above. *)

(** The valid extent half-range: 16384 below generation 7, 32768 at
    generation 7 and above. *)
Definition spec_extent (gen7_or_above : bool) : Z :=
  if gen7_or_above then 32768 else 16384.

(** The clamp rule of one axis, over the mathematical integers. *)
Definition spec_clamp (extent center : Z) : Z :=
  if center - 4096 <? - extent then - extent + 4096
  else if extent - 1 <? center + 4096 then extent - 4096
  else center.

(** The four results [(min_x, max_x, min_y, max_y)]. *)
Definition spec_guardband (extent center_x center_y : Z) : Z * Z * Z * Z :=
  let cx := spec_clamp extent center_x in
  let cy := spec_clamp extent center_y in
  (cx - 4096, cx + 4096, cy - 4096, cy + 4096).

(** The guardband arithmetic of a center stays inside [int]. *)
Definition center_in_range (c : Z) : Prop :=
  INT_MIN + 4096 <= c <= INT_MAX - 4096.

(** The generation lies in the supported range (the precondition that
    [INTEL_GPU_ASSERT] checks). *)
Definition gen_supported (gpu : intel_gpu) : Prop :=
  INTEL_GEN_6 <= intel_gpu_gen gpu <= INTEL_GEN_7_5.

(** The word count of the buffer is a [uint32_t] value, so that the lengths
    the planner adds up for a valid count do not wrap around. *)
Definition words_fit_uint32 : Prop := CMD_WORDS <= UINT32_MAX.

(** The buffer of a state holder has the declared capacity. *)
Definition cmd_allocated (state : intel_dynamic_viewport) : Prop :=
  Z.of_nat (length (cmd state)) = CMD_WORDS.

(** The per-viewport strides of the SF and CLIP sub-blocks. *)
Definition sf_stride_of (gpu : intel_gpu) : Z :=
  if INTEL_GEN_7 <=? intel_gpu_gen gpu then 16 else 8.

Definition clip_stride_of (gpu : intel_gpu) : Z :=
  if INTEL_GEN_7 <=? intel_gpu_gen gpu then 16 else 4.

(** The [n] words of a buffer from word offset [p] on. *)
Definition read_words (b : list Z) (p : Z) (n : nat) : list Z :=
  take n (drop (Z.to_nat p) b).

(** Scale and translation of a viewport, and its SF entry, as the
    specification states them. *)
Definition spec_scale (v : VkViewport) : float * float * float :=
  (fdiv (width v) f_2_0, fdiv (height v) f_2_0,
   fsub (maxDepth v) (minDepth v)).

Definition spec_translate (v : VkViewport) : float * float * float :=
  let '(sx, sy, _) := spec_scale v in
  (fadd (originX v) sx, fadd (originY v) sy, minDepth v).

Definition spec_sf_entry (v : VkViewport) : list Z :=
  let '(sx, sy, sz) := spec_scale v in
  let '(tx, ty, tz) := spec_translate v in
  [u_fui sx; u_fui sy; u_fui sz; u_fui tx; u_fui ty; u_fui tz; 0; 0].

(** The words an iteration of the viewport loop writes, the pointers being
    [sf], [clip] and [cc]: eight SF words, four CLIP words, two CC words. *)
Definition touches (sf clip cc idx : Z) : Prop :=
  sf <= idx < sf + 8 \/ clip <= idx < clip + 4 \/ cc <= idx < cc + 2.

(** The two layouts seen from the pointers of an iteration with [n]
    iterations left: CLIP entries inside the 16-word SF slots, or the SF,
    CLIP and CC blocks one after the other. *)
Definition layout_inv (sfs cs sf clip cc n : Z) : Prop :=
  0 <= sf /\
  ((sfs = 16 /\ cs = 16 /\ clip = sf + 8 /\ sf + 16 * n <= cc) \/
   (sfs = 8 /\ cs = 4 /\ sf + 8 * n <= clip /\ clip + 4 * n <= cc)).

(** The words of a sub-block: entries of [width] words, one for each of
    [count] viewports, [stride] words apart from word [off] on. *)
Definition entry_words (off stride width count idx : Z) : Prop :=
  exists i k, 0 <= i < count /\ 0 <= k < width /\ idx = off + stride * i + k.

(** The four sub-blocks of a state holder as (offset, stride, entry width):
    SF, CLIP, CC and scissor. *)
Definition sub_blocks (gpu : intel_gpu) (st : intel_dynamic_viewport)
  : list (Z * Z * Z) :=
  [ (0, sf_stride_of gpu, 8);
    (cmd_clip_pos st, clip_stride_of gpu, 4);
    (cmd_cc_pos st, 2, 2);
    (cmd_scissor_rect_pos st, 2, 2) ].

Definition block_words (blk : Z * Z * Z) (count idx : Z) : Prop :=
  let '(off, stride, width) := blk in entry_words off stride width count idx.

(** The layout invariant as the specification words it: the offsets
    increase, and the sub-blocks, each [stride * viewport_count] words long
    from its offset on, do not overlap. *)
Definition spec_offsets_increasing (st : intel_dynamic_viewport) : Prop :=
  0 <= cmd_clip_pos st /\ cmd_clip_pos st <= cmd_cc_pos st /\
  cmd_cc_pos st <= cmd_scissor_rect_pos st.

Definition spec_span (blk : Z * Z * Z) (count idx : Z) : Prop :=
  let '(off, stride, _) := blk in off <= idx < off + stride * count.

Definition spec_spans_disjoint (gpu : intel_gpu)
    (st : intel_dynamic_viewport) : Prop :=
  forall (m n : nat) A B idx,
    sub_blocks gpu st !! m = Some A -> sub_blocks gpu st !! n = Some B ->
    m <> n ->
    spec_span A (viewport_count st) idx ->
    ~ spec_span B (viewport_count st) idx.

Definition spec_layout_invariant (gpu : intel_gpu)
    (st : intel_dynamic_viewport) : Prop :=
  spec_offsets_increasing st /\ spec_spans_disjoint gpu st.

(** The scissor words as the specification states them. *)
Definition spec_scissor_max_x (s : VkRect2D) : Z :=
  Z.land (x (offset s) + ext_width (extent s) - 1) 0xFFFF.

Definition spec_scissor_max_y (s : VkRect2D) : Z :=
  Z.land (y (offset s) + ext_height (extent s) - 1) 0xFFFF.

Definition spec_scissor_words (s : VkRect2D) : Z * Z :=
  (Z.lor (Z.shiftl (Z.land (y (offset s)) 0xFFFF) 16)
         (Z.land (x (offset s)) 0xFFFF),
   Z.lor (Z.shiftl (spec_scissor_max_y s) 16) (spec_scissor_max_x s)).

(** Decoding the two words by the documented shifts:
    [(offsetX, offsetY, maxX, maxY)]. *)
Definition decode_scissor (w : Z * Z) : Z * Z * Z * Z :=
  (Z.land (fst w) 0xFFFF, Z.land (Z.shiftr (fst w) 16) 0xFFFF,
   Z.land (snd w) 0xFFFF, Z.land (Z.shiftr (snd w) 16) 0xFFFF).

(** A field is written with [v] if and only if its face is selected: it
    holds [v] when the face is selected and its old value otherwise. *)
Definition written_iff (selected : Prop) (old new v : Z) : Prop :=
  (selected -> new = v) /\ (~ selected -> new = old).

(** ** Auxiliary definitions of the proofs *)

(** A check of a boolean property on the [2 ^ bits] integers from [base]
    on, by halving the interval. *)
Fixpoint all_from (P : Z -> bool) (bits : nat) (base : Z) : bool :=
  match bits with
  | O => P base
  | S b => all_from P b base && all_from P b (base + 2 ^ Z.of_nat b)
  end.

(** The conversion of an integer to [float] and back returns it. *)
Definition roundtrip_ok (v : Z) : bool := int_of_float (float_of_int v) =? v.

(** The state the planner leaves, for each of the two layouts. *)
Definition planned (state : intel_dynamic_viewport) (gpu : intel_gpu)
    (count : Z) : intel_dynamic_viewport :=
  if INTEL_GEN_7 <=? intel_gpu_gen gpu then
    {| viewport_count := count; cmd := cmd state;
       cmd_len := 20 * count; cmd_clip_pos := 8;
       cmd_cc_pos := 16 * count; cmd_scissor_rect_pos := 18 * count |}
  else
    {| viewport_count := count; cmd := cmd state;
       cmd_len := 16 * count; cmd_clip_pos := 8 * count;
       cmd_cc_pos := 12 * count; cmd_scissor_rect_pos := 14 * count |}.

(** What the loop over the viewports establishes, the per-viewport strides
    being [sfs] and [cs]: it returns, the buffer keeps its length, a word
    that no iteration touches keeps its value, and the SF entry of every
    viewport holds the words of the specification. *)
Definition viewport_loop_post (sfs cs : Z) (viewports : list VkViewport)
    (n : nat) (i : Z) (p : viewport_cursor)
    (r : result viewport_cursor) : Prop :=
  exists p',
    r = Ok p' /\
    length (buf p') = length (buf p) /\
    (forall idx, 0 <= idx ->
       (forall j, 0 <= j < Z.of_nat n ->
          ~ touches (sf_viewport p + sfs * j) (clip_viewport p + cs * j)
              (cc_viewport p + 2 * j) idx) ->
       buf p' !! Z.to_nat idx = buf p !! Z.to_nat idx) /\
    (forall (j : nat) vp, (j < n)%nat ->
       viewports !! (Z.to_nat i + j)%nat = Some vp ->
       read_words (buf p') (sf_viewport p + sfs * Z.of_nat j) 8 =
       spec_sf_entry vp).

(** The two layouts, by the strides and by what the pointers satisfy with
    [n] iterations left.  Generations 7 and above: the CLIP entry of a
    viewport lies at word 8 of its 16-word SF slot; generations below 7: the
    SF, CLIP and CC blocks follow one another. *)
Definition stride_sf (interleaved : bool) : Z := if interleaved then 16 else 8.
Definition stride_clip (interleaved : bool) : Z := if interleaved then 16 else 4.

Definition shape (interleaved : bool) (sf clip cc n : Z) : Prop :=
  if interleaved then clip = sf + 8 /\ sf + 16 * n <= cc
  else sf + 8 * n <= clip /\ clip + 4 * n <= cc.

(** The words the scissor loop stores for a scissor, as a buffer entry. *)
Definition scissor_entry (s : VkRect2D) : list Z :=
  [fst (scissor_words s); snd (scissor_words s)].

(** ** Further formulations

    Definitions used by the properties of the code beyond the
    specification's testable properties. *)

(** The generation test of [INTEL_GPU_ASSERT], as a boolean. *)
Definition gen_supportedb (gpu : intel_gpu) : bool :=
  (INTEL_GEN_6 <=? intel_gpu_gen gpu) && (intel_gpu_gen gpu <=? INTEL_GEN_7_5).

(** The result of a call mapped through a function on the state. *)
Definition result_map {A B : Type} (f : A -> B) (r : result A) : result B :=
  match r with
  | Ok a => Ok (f a)
  | Err e => Err e
  end.

(** The four CLIP words and the two CC words that the loop body computes
    for a viewport (lines 153-161, 177-180 and 185-186 of the source). *)
Definition clip_entry (gpu : intel_gpu) (viewport : VkViewport) : list Z :=
  let scale0 := fdiv (width viewport) f_2_0 in
  let scale1 := fdiv (height viewport) f_2_0 in
  let translate0 := fadd (originX viewport) scale0 in
  let translate1 := fadd (originY viewport) scale1 in
  let '(min_gbx, max_gbx, min_gby, max_gby) :=
    viewport_get_guardband gpu
      (int_of_float translate0) (int_of_float translate1) in
  [u_fui (fdiv (fsub (float_of_int min_gbx) translate0) (fabsf scale0));
   u_fui (fdiv (fsub (float_of_int max_gbx) translate0) (fabsf scale0));
   u_fui (fdiv (fsub (float_of_int min_gby) translate1) (fabsf scale1));
   u_fui (fdiv (fsub (float_of_int max_gby) translate1) (fabsf scale1))].

Definition cc_entry (viewport : VkViewport) : list Z :=
  [u_fui (minDepth viewport); u_fui (maxDepth viewport)].

(** The center that the loop body passes to the guardband calculator,
    [(int) translate[0]] and [(int) translate[1]], lies where the
    calculator's [int] arithmetic does not overflow.  A translation that
    is a NaN, infinite or outside [int], for which C leaves the conversion
    undefined, is excluded as well: [int_of_float] gives [INT_MIN] for it,
    which is not in the range. *)
Definition center_defined (viewport : VkViewport) : Prop :=
  let '(translate_x, translate_y, _) := spec_translate viewport in
  center_in_range (int_of_float translate_x) /\
  center_in_range (int_of_float translate_y).

(** The cursor at the start of the first loop of [set_viewport_state]. *)
Definition start_cursor (st : intel_dynamic_viewport) : viewport_cursor :=
  {| buf := cmd st; sf_viewport := 0;
     clip_viewport := cmd_clip_pos st; cc_viewport := cmd_cc_pos st |}.


(** Further sample inputs: a command buffer on a GPU outside the supported
    generations, and one whose state buffer holds stale words. *)
Definition unsupported_cmd : intel_cmd :=
  {| dev_gpu := {| gen := 800 |}; bind_state_viewport := sample_state;
     bind_state_stencil := bind_state_stencil sample_cmd |}.

Definition stale_cmd : intel_cmd :=
  {| dev_gpu := sample_gpu7;
     bind_state_viewport :=
       {| viewport_count := 3; cmd := replicate 320 0xAAAAAAAA; cmd_len := 60;
          cmd_clip_pos := 8; cmd_cc_pos := 48; cmd_scissor_rect_pos := 54 |};
     bind_state_stencil := bind_state_stencil sample_cmd |}.
(** ** Machine integers and floats: basic facts *)

Lemma to_int_id (z : Z) : INT_MIN <= z <= INT_MAX -> to_int z = z.
Proof.
  unfold to_int, INT_MIN, INT_MAX. intros H.
  rewrite Z.mod_small by lia. lia.
Qed.

Lemma to_uint32_id (z : Z) : 0 <= z <= UINT32_MAX -> to_uint32 z = z.
Proof.
  unfold to_uint32, UINT32_MAX. intros H. apply Z.mod_small. lia.
Qed.

Lemma all_from_spec (P : Z -> bool) (bits : nat) : forall base v,
  all_from P bits base = true ->
  base <= v < base + 2 ^ Z.of_nat bits -> P v = true.
Proof.
  induction bits as [|b IH]; intros base v H Hv.
  - simpl in *. replace v with base by lia. exact H.
  - cbn [all_from] in H. apply andb_true_iff in H as [H1 H2].
    rewrite Nat2Z.inj_succ, Z.pow_succ_r in Hv by lia.
    destruct (Z_lt_ge_dec v (base + 2 ^ Z.of_nat b)).
    + apply (IH base); [exact H1 | lia].
    + apply (IH (base + 2 ^ Z.of_nat b)); [exact H2 | lia].
Qed.

Lemma roundtrip_table :
  all_from roundtrip_ok 16 (-32768) && roundtrip_ok 32768 = true.
Proof. vm_compute. reflexivity. Qed.

(** Every integer a clamped guardband can hold is a [float], so the
    conversion to [float] and back returns it. *)
Lemma int_of_float_of_int (v : Z) :
  -32768 <= v <= 32768 -> int_of_float (float_of_int v) = v.
Proof.
  intros H. pose proof roundtrip_table as T.
  apply andb_true_iff in T as [T1 T2].
  apply Z.eqb_eq. fold (roundtrip_ok v).
  destruct (Z.eq_dec v 32768) as [->|Hne]; [exact T2|].
  apply (all_from_spec roundtrip_ok 16 (-32768)); [exact T1|].
  change (2 ^ Z.of_nat 16) with 65536. lia.
Qed.

(** ** The guardband calculator: properties *)

Lemma max_extent_of_cases (gpu : intel_gpu) :
  max_extent_of gpu = spec_extent (INTEL_GEN_7 <=? intel_gpu_gen gpu) /\
  (max_extent_of gpu = 32768 \/ max_extent_of gpu = 16384).
Proof.
  unfold max_extent_of, spec_extent.
  destruct (INTEL_GEN_7 <=? intel_gpu_gen gpu); auto.
Qed.

(** On a center whose guardband arithmetic stays inside [int], the code's
    clamp is the clamp rule of the specification. *)
Lemma clamp_center_spec (extent c : Z) :
  extent = 32768 \/ extent = 16384 ->
  center_in_range c ->
  clamp_center extent 4096 c = spec_clamp extent c.
Proof.
  unfold center_in_range, clamp_center, spec_clamp. intros He Hc.
  assert (Hr : 16384 <= extent <= 32768) by lia.
  unfold int_add, int_sub, int_neg.
  rewrite (to_int_id (- extent)) by (unfold INT_MIN, INT_MAX; lia).
  rewrite !to_int_id by (unfold INT_MIN, INT_MAX in *; lia).
  reflexivity.
Qed.

Lemma spec_clamp_bounds (extent c : Z) :
  8192 <= extent ->
  - extent + 4096 <= spec_clamp extent c <= extent - 4096.
Proof.
  unfold spec_clamp. intros He.
  destruct (c - 4096 <? - extent) eqn:E1; [lia|].
  destruct (extent - 1 <? c + 4096) eqn:E2; lia.
Qed.

(** One axis of the calculator on a center whose guardband arithmetic
    stays inside [int]: the two bounds are the clamped center minus and
    plus 4096, and the conversion to [float] and back leaves them as they
    are. *)
Lemma guardband_axis (extent c : Z) :
  extent = 32768 \/ extent = 16384 ->
  center_in_range c ->
  int_of_float (float_of_int (int_sub (clamp_center extent 4096 c) 4096)) =
    spec_clamp extent c - 4096 /\
  int_of_float (float_of_int (int_add (clamp_center extent 4096 c) 4096)) =
    spec_clamp extent c + 4096.
Proof.
  intros He Hc.
  rewrite clamp_center_spec by assumption.
  pose proof (spec_clamp_bounds extent c ltac:(lia)) as B.
  unfold int_add, int_sub.
  rewrite !to_int_id by (unfold INT_MIN, INT_MAX; lia).
  rewrite !int_of_float_of_int by lia.
  split; reflexivity.
Qed.

(** C2 (as amended): for every generation tier and every center [(x, y)]
    whose guardband arithmetic stays inside the 32-bit [int] (each
    coordinate between [INT_MIN + 4096] and [INT_MAX - 4096]), the
    calculator clamps each axis independently by the stated rule, with an
    extent of 16384 below generation 7 and 32768 from generation 7 on, and
    returns [min = center - 4096] and [max = center + 4096] on each axis;
    the function is total. *)
Theorem viewport_get_guardband_clamp_rule
    (gpu : intel_gpu) (center_x center_y : Z) :
  center_in_range center_x ->
  center_in_range center_y ->
  viewport_get_guardband gpu center_x center_y =
  spec_guardband (spec_extent (INTEL_GEN_7 <=? intel_gpu_gen gpu))
    center_x center_y.
Proof.
  intros Hx Hy.
  destruct (max_extent_of_cases gpu) as [Hext Hcases].
  unfold viewport_get_guardband, spec_guardband.
  rewrite <- Hext.
  change (8192 / 2) with 4096.
  destruct (guardband_axis (max_extent_of gpu) center_x Hcases Hx)
    as [-> ->].
  destruct (guardband_axis (max_extent_of gpu) center_y Hcases Hy)
    as [-> ->].
  reflexivity.
Qed.

(** Where the clamp fires, on the x axis: a guardband that would start
    below [-extent] is pinned to start at [-extent]; one that would end
    above [extent - 1] is pinned to end at [extent], one past the last
    valid coordinate.  The width is 8192 throughout. *)
Lemma viewport_get_guardband_pinned
    (gpu : intel_gpu) (center_x center_y : Z) :
  center_in_range center_x ->
  center_in_range center_y ->
  let extent := max_extent_of gpu in
  let '(min_gbx, max_gbx, _, _) :=
    viewport_get_guardband gpu center_x center_y in
  (center_x - 4096 < - extent ->
     min_gbx = - extent /\ max_gbx = - extent + 8192) /\
  (extent - 1 < center_x + 4096 ->
     min_gbx = extent - 8192 /\ max_gbx = extent) /\
  max_gbx - min_gbx = 8192.
Proof.
  intros Hx Hy.
  destruct (max_extent_of_cases gpu) as [_ Hcases].
  cbv zeta. unfold viewport_get_guardband.
  change (8192 / 2) with 4096.
  destruct (guardband_axis (max_extent_of gpu) center_x Hcases Hx)
    as [-> ->].
  unfold spec_clamp.
  destruct (center_x - 4096 <? - max_extent_of gpu) eqn:E1;
    [apply Z.ltb_lt in E1 | apply Z.ltb_ge in E1];
    [|destruct (max_extent_of gpu - 1 <? center_x + 4096) eqn:E2;
      [apply Z.ltb_lt in E2 | apply Z.ltb_ge in E2]];
    repeat split; intros; lia.
Qed.

(** The clamp of the code returns one of the two pinned centers or the
    center it was given. *)
Lemma clamp_center_cases (extent half_len c : Z) :
  clamp_center extent half_len c = int_add (int_neg extent) half_len \/
  clamp_center extent half_len c = int_sub extent half_len \/
  (clamp_center extent half_len c = c /\
   (int_sub c half_len <? int_neg extent) = false /\
   (int_sub extent 1 <? int_add c half_len) = false).
Proof.
  unfold clamp_center.
  destruct (int_sub c half_len <? int_neg extent); [now left|].
  destruct (int_sub extent 1 <? int_add c half_len); [right; now left|].
  right; right. repeat split.
Qed.

Lemma clamp_center_idem (extent c : Z) :
  extent = 32768 \/ extent = 16384 ->
  clamp_center extent 4096 (clamp_center extent 4096 c) =
  clamp_center extent 4096 c.
Proof.
  intros He.
  destruct (clamp_center_cases extent 4096 c) as [H | [H | (H & E1 & E2)]];
    rewrite H.
  - destruct He as [-> | ->]; vm_compute; reflexivity.
  - destruct He as [-> | ->]; vm_compute; reflexivity.
  - unfold clamp_center. rewrite E1, E2. reflexivity.
Qed.

(** C9: the guardband clamp is idempotent.  For every integer center and
    every generation tier, clamping a center that has already been clamped
    returns the same center, on each axis; hence the calculator returns the
    same guardband on the clamped center as on the center itself. *)
Theorem guardband_clamp_idempotent
    (gpu : intel_gpu) (center_x center_y : Z) :
  let clamp := clamp_center (max_extent_of gpu) (8192 / 2) in
  clamp (clamp center_x) = clamp center_x /\
  clamp (clamp center_y) = clamp center_y /\
  viewport_get_guardband gpu (clamp center_x) (clamp center_y) =
  viewport_get_guardband gpu center_x center_y.
Proof.
  cbv zeta. change (8192 / 2) with 4096.
  destruct (max_extent_of_cases gpu) as [_ Hcases].
  pose proof (clamp_center_idem (max_extent_of gpu) center_x Hcases) as Ix.
  pose proof (clamp_center_idem (max_extent_of gpu) center_y Hcases) as Iy.
  split; [exact Ix|]. split; [exact Iy|].
  unfold viewport_get_guardband. change (8192 / 2) with 4096.
  rewrite Ix, Iy. reflexivity.
Qed.

(** ** The layout planner: properties *)

Lemma INTEL_GPU_ASSERT_ok (gpu : intel_gpu) :
  gen_supported gpu -> INTEL_GPU_ASSERT gpu = Ok tt.
Proof.
  unfold gen_supported, INTEL_GPU_ASSERT, assert. intros [H1 H2].
  apply Z.leb_le in H1, H2. rewrite H1, H2. reflexivity.
Qed.

Lemma viewport_state_cmd_planned
    (state : intel_dynamic_viewport) (gpu : intel_gpu) (count : Z) :
  words_fit_uint32 ->
  gen_supported gpu ->
  0 <= count <= INTEL_MAX_VIEWPORTS ->
  viewport_state_cmd state gpu count = Ok (planned state gpu count).
Proof.
  unfold words_fit_uint32, CMD_WORDS. intros Hfit Hgen Hcount.
  unfold viewport_state_cmd, planned.
  rewrite (INTEL_GPU_ASSERT_ok gpu Hgen). cbn [bind].
  assert (Hc : (count <=? INTEL_MAX_VIEWPORTS) = true) by (apply Z.leb_le; lia).
  rewrite Hc. cbn [assert bind].
  unfold sizeof_cmd, sizeof_uint32, CMD_WORDS.
  destruct (INTEL_GEN_7 <=? intel_gpu_gen gpu);
    cbn [set_cmd_len set_cmd_clip_pos set_cmd_cc_pos set_cmd_scissor_rect_pos
         set_viewport_count viewport_count cmd cmd_len cmd_clip_pos
         cmd_cc_pos cmd_scissor_rect_pos];
    unfold u32_add, u32_mul.
  - rewrite (to_uint32_id (16 * count)), (to_uint32_id (2 * count)),
      (to_uint32_id (16 * count + 2 * count)),
      (to_uint32_id (16 * count + 2 * count + 2 * count))
      by (unfold UINT32_MAX in *; lia).
    replace (4 * (16 * count + 2 * count + 2 * count) <=?
             4 * (INTEL_MAX_VIEWPORTS * (16 + 2 + 2))) with true
      by (symmetry; apply Z.leb_le; lia).
    cbn [assert bind].
    unfold set_cmd_len, set_cmd_scissor_rect_pos, set_cmd_cc_pos,
      set_cmd_clip_pos, set_viewport_count.
    cbn [viewport_count cmd cmd_len cmd_clip_pos cmd_cc_pos
         cmd_scissor_rect_pos].
    do 2 f_equal; lia.
  - rewrite (to_uint32_id (8 * count)), (to_uint32_id (4 * count)),
      (to_uint32_id (2 * count)), (to_uint32_id (8 * count + 4 * count)),
      (to_uint32_id (8 * count + 4 * count + 2 * count)),
      (to_uint32_id (8 * count + 4 * count + 2 * count + 2 * count))
      by (unfold UINT32_MAX in *; lia).
    replace (4 * (8 * count + 4 * count + 2 * count + 2 * count) <=?
             4 * (INTEL_MAX_VIEWPORTS * (16 + 2 + 2))) with true
      by (symmetry; apply Z.leb_le; lia).
    cbn [assert bind].
    unfold set_cmd_len, set_cmd_scissor_rect_pos, set_cmd_cc_pos,
      set_cmd_clip_pos, set_viewport_count.
    cbn [viewport_count cmd cmd_len cmd_clip_pos cmd_cc_pos
         cmd_scissor_rect_pos].
    do 2 f_equal; lia.
Qed.

(** C1: for every generation tier of at least 7 and every valid viewport
    count, the planner sets the total length to
    [16*count + 2*count + 2*count] words and the CLIP offset to 8; for
    every generation tier below 7 it sets the total length to
    [8*count + 4*count + 2*count + 2*count] and the CLIP offset to
    [8*count]; in both cases the CC offset is the length accumulated
    before the CC block and the scissor offset the length accumulated
    before the scissor block. *)
Theorem viewport_state_cmd_layout
    (state : intel_dynamic_viewport) (gpu : intel_gpu) (count : Z) :
  words_fit_uint32 ->
  gen_supported gpu ->
  0 <= count <= INTEL_MAX_VIEWPORTS ->
  exists state',
    viewport_state_cmd state gpu count = Ok state' /\
    viewport_count state' = count /\
    (INTEL_GEN_7 <= intel_gpu_gen gpu ->
       cmd_len state' = 16 * count + 2 * count + 2 * count /\
       cmd_clip_pos state' = 8 /\
       cmd_cc_pos state' = 16 * count /\
       cmd_scissor_rect_pos state' = 16 * count + 2 * count) /\
    (intel_gpu_gen gpu < INTEL_GEN_7 ->
       cmd_len state' = 8 * count + 4 * count + 2 * count + 2 * count /\
       cmd_clip_pos state' = 8 * count /\
       cmd_cc_pos state' = 8 * count + 4 * count /\
       cmd_scissor_rect_pos state' = 8 * count + 4 * count + 2 * count).
Proof.
  intros Hfit Hgen Hcount.
  exists (planned state gpu count). split.
  - apply viewport_state_cmd_planned; assumption.
  - unfold planned.
    destruct (INTEL_GEN_7 <=? intel_gpu_gen gpu) eqn:E; cbn.
    + apply Z.leb_le in E. repeat split; intros; lia.
    + apply Z.leb_gt in E. repeat split; intros; lia.
Qed.

(** C8: for every supported generation tier and every viewport count that
    does not exceed the hardware maximum, the total length the planner
    computes, times the word size, is at most the capacity of the buffer:
    the planner returns, and its capacity assertion does not fire. *)
Theorem viewport_state_cmd_within_capacity
    (state : intel_dynamic_viewport) (gpu : intel_gpu) (count : Z) :
  words_fit_uint32 ->
  gen_supported gpu ->
  0 <= count <= INTEL_MAX_VIEWPORTS ->
  exists state',
    viewport_state_cmd state gpu count = Ok state' /\
    sizeof_uint32 * cmd_len state' <= sizeof_cmd.
Proof.
  intros Hfit Hgen Hcount.
  exists (planned state gpu count). split.
  - apply viewport_state_cmd_planned; assumption.
  - unfold planned, sizeof_cmd, sizeof_uint32, CMD_WORDS.
    destruct (INTEL_GEN_7 <=? intel_gpu_gen gpu); cbn [cmd_len]; lia.
Qed.

(** A count above the hardware maximum aborts. *)
Lemma viewport_state_cmd_count_abort
    (state : intel_dynamic_viewport) (gpu : intel_gpu) (count : Z) :
  gen_supported gpu ->
  INTEL_MAX_VIEWPORTS < count ->
  viewport_state_cmd state gpu count = Err count_assert.
Proof.
  intros Hgen Hcount. unfold viewport_state_cmd.
  rewrite (INTEL_GPU_ASSERT_ok gpu Hgen). cbn [bind].
  assert (Hc : (count <=? INTEL_MAX_VIEWPORTS) = false) by (apply Z.leb_gt; lia).
  rewrite Hc. reflexivity.
Qed.

(** ** The word buffer *)

Lemma store_bind {B : Type} (b : list Z) (p v : Z) (k : list Z -> result B) :
  0 <= p < Z.of_nat (length b) ->
  bind (store b p v) k = k (<[Z.to_nat p := v]> b).
Proof.
  intros [H1 H2]. unfold store.
  apply Z.leb_le in H1. apply Z.ltb_lt in H2. rewrite H1, H2. reflexivity.
Qed.

Lemma fetch_bind {A B : Type} (a : list A) (i : Z) (v : A)
    (k : A -> result B) :
  a !! Z.to_nat i = Some v -> bind (fetch a i) k = k v.
Proof. intros H. unfold fetch. rewrite H. reflexivity. Qed.

Lemma read_words_lookup (b : list Z) (p : Z) (n k : nat) :
  (k < n)%nat -> read_words b p n !! k = b !! (Z.to_nat p + k)%nat.
Proof.
  intros H. unfold read_words. rewrite lookup_take_lt by exact H.
  apply lookup_drop.
Qed.

Lemma read_words_ext (b b' : list Z) (p : Z) (n : nat) :
  (forall k, (k < n)%nat ->
     b !! (Z.to_nat p + k)%nat = b' !! (Z.to_nat p + k)%nat) ->
  read_words b p n = read_words b' p n.
Proof.
  intros H. apply list_eq. intros k.
  destruct (Nat.lt_ge_cases k n) as [Hk | Hk].
  - rewrite !read_words_lookup by exact Hk. apply H, Hk.
  - unfold read_words. rewrite !lookup_take_ge by exact Hk. reflexivity.
Qed.

Lemma read_words_intro (b : list Z) (p : Z) (ws : list Z) :
  (forall k w, ws !! k = Some w -> b !! (Z.to_nat p + k)%nat = Some w) ->
  read_words b p (length ws) = ws.
Proof.
  intros H. apply list_eq. intros k.
  destruct (ws !! k) as [w|] eqn:E.
  - rewrite read_words_lookup by (eapply lookup_lt_Some; exact E).
    apply H, E.
  - unfold read_words. apply lookup_take_ge.
    apply lookup_ge_None_1, E.
Qed.

Lemma lookup_insert_hit (l : list Z) (i j : nat) (v : Z) :
  i = j -> (j < length l)%nat -> <[i := v]> l !! j = Some v.
Proof. intros -> H. apply list_lookup_insert_eq, H. Qed.

(** Peels the writes that miss the index off a buffer lookup, down to the
    write that hits it. *)
Ltac peel_inserts :=
  repeat (rewrite list_lookup_insert_ne by lia).

Ltac hit_insert :=
  peel_inserts;
  apply lookup_insert_hit; [lia | rewrite ?length_insert; lia].

(** ** The encoder: one iteration *)

Lemma viewport_body_ok (gpu : intel_gpu) (sfs cs : Z) (vp : VkViewport)
    (p : viewport_cursor) :
  0 <= sf_viewport p -> 0 <= clip_viewport p -> 0 <= cc_viewport p ->
  sf_viewport p + 8 <= Z.of_nat (length (buf p)) ->
  clip_viewport p + 4 <= Z.of_nat (length (buf p)) ->
  cc_viewport p + 2 <= Z.of_nat (length (buf p)) ->
  exists b',
    viewport_body gpu sfs cs vp p =
      Ok {| buf := b'; sf_viewport := sf_viewport p + sfs;
            clip_viewport := clip_viewport p + cs;
            cc_viewport := cc_viewport p + 2 |} /\
    length b' = length (buf p) /\
    (forall idx, 0 <= idx ->
       ~ touches (sf_viewport p) (clip_viewport p) (cc_viewport p) idx ->
       b' !! Z.to_nat idx = buf p !! Z.to_nat idx) /\
    (clip_viewport p + 4 <= sf_viewport p \/
     sf_viewport p + 8 <= clip_viewport p ->
     cc_viewport p + 2 <= sf_viewport p \/
     sf_viewport p + 8 <= cc_viewport p ->
     read_words b' (sf_viewport p) 8 = spec_sf_entry vp).
Proof.
  intros Hsf Hclip Hcc Lsf Lclip Lcc.
  unfold viewport_body.
  destruct (viewport_get_guardband gpu _ _) as [[[min_gbx max_gbx] min_gby] max_gby].
  do 14 (rewrite store_bind by (rewrite ?length_insert; lia)).
  eexists. split; [reflexivity|].
  split; [rewrite !length_insert; reflexivity|].
  split.
  - intros idx Hidx Hno. unfold touches in Hno. peel_inserts. reflexivity.
  - intros D1 D2.
    change 8%nat with (length (spec_sf_entry vp)).
    apply read_words_intro. intros k w Hk.
    cbv [spec_sf_entry spec_translate spec_scale] in Hk.
    do 8 (destruct k as [|k]; [injection Hk as <-; hit_insert|]).
    discriminate Hk.
Qed.

Lemma scissor_body_ok (s : VkRect2D) (b : list Z) (sc : Z) :
  0 <= sc -> sc + 2 <= Z.of_nat (length b) ->
  scissor_body s b sc =
    Ok (<[Z.to_nat (sc + 1) := snd (scissor_words s)]>
          (<[Z.to_nat (sc + 0) := fst (scissor_words s)]> b), sc + 2).
Proof.
  intros H1 H2. unfold scissor_body, scissor_words.
  destruct (negb (ext_width (extent s) =? 0) &&
            negb (ext_height (extent s) =? 0));
    do 2 (rewrite store_bind by (rewrite ?length_insert; lia));
    cbn [fst snd]; reflexivity.
Qed.

(** ** The encoder: the two loops *)

(** The induction on the number of iterations left; the same steps prove
    the two layouts. *)
Lemma viewport_loop_shape (interleaved : bool) (gpu : intel_gpu)
    (viewports : list VkViewport) :
  forall (n : nat) (i : Z) (p : viewport_cursor),
  0 <= i -> i + Z.of_nat n <= Z.of_nat (length viewports) ->
  0 <= sf_viewport p ->
  shape interleaved (sf_viewport p) (clip_viewport p) (cc_viewport p)
    (Z.of_nat n) ->
  cc_viewport p + 2 * Z.of_nat n <= Z.of_nat (length (buf p)) ->
  viewport_loop_post (stride_sf interleaved) (stride_clip interleaved)
    viewports n i p
    (viewport_loop gpu (stride_sf interleaved) (stride_clip interleaved)
       viewports n i p).
Proof.
  destruct interleaved; cbn [shape stride_sf stride_clip];
  (intros n; induction n as [|n IH];
   intros i p Hi Hlen Hsf [Hs1 Hs2] Hcap; unfold viewport_loop_post;
   [ exists p; cbn [viewport_loop];
     split; [reflexivity|]; split; [reflexivity|];
     split; [intros; reflexivity | intros j vp Hj; lia]
   | destruct (lookup_lt_is_Some_2 viewports (Z.to_nat i)) as [vp0 Hvp0];
       [lia|];
     cbn [viewport_loop]; rewrite (fetch_bind viewports i vp0 _ Hvp0);
     match goal with
     | |- context [viewport_body gpu ?S ?C vp0 p] =>
         destruct (viewport_body_ok gpu S C vp0 p)
           as (b1 & Hbody & Hlen1 & Hpres1 & Hsf1); try lia;
         rewrite Hbody; cbn [bind];
         match goal with
         | |- context [viewport_loop gpu S C viewports n (i + 1) ?p1] =>
             destruct (IH (i + 1) p1)
               as (p' & Hloop & Hlen' & Hpres' & Hsf');
               try (cbn [buf sf_viewport clip_viewport cc_viewport]; lia)
         end
     end;
     cbn [buf sf_viewport clip_viewport cc_viewport] in *;
     exists p'; split; [exact Hloop|]; split; [congruence|]; split;
     [ intros idx Hidx Hno;
       rewrite Hpres';
       [ apply Hpres1;
         [lia | specialize (Hno 0); unfold touches in *; lia]
       | lia
       | intros j Hj; specialize (Hno (j + 1));
         unfold touches in *; lia ]
     | intros j vp Hj Hvp; destruct j as [|j];
       [ rewrite Nat.add_0_r in Hvp;
         assert (vp = vp0) by congruence; subst vp;
         rewrite <- Hsf1 by lia;
         match goal with
         | |- read_words _ ?q _ = _ =>
             replace q with (sf_viewport p) by lia
         end;
         apply read_words_ext; intros k Hk;
         replace (Z.to_nat (sf_viewport p) + k)%nat
           with (Z.to_nat (sf_viewport p + Z.of_nat k)) by lia;
         apply Hpres'; [lia|];
         intros j' Hj'; unfold touches; lia
       | match goal with
         | |- read_words _ (_ + ?S * _) _ = _ =>
             replace (sf_viewport p + S * Z.of_nat (Datatypes.S j))
               with (sf_viewport p + S + S * Z.of_nat j) by lia
         end;
         apply Hsf'; [lia|];
         replace (Z.to_nat (i + 1) + j)%nat
           with (Z.to_nat i + Datatypes.S j)%nat by lia;
         exact Hvp ] ] ]).
Qed.

Lemma viewport_loop_ok (gpu : intel_gpu) (sfs cs : Z)
    (viewports : list VkViewport) (n : nat) (i : Z) (p : viewport_cursor) :
  0 <= i -> i + Z.of_nat n <= Z.of_nat (length viewports) ->
  layout_inv sfs cs (sf_viewport p) (clip_viewport p) (cc_viewport p)
    (Z.of_nat n) ->
  cc_viewport p + 2 * Z.of_nat n <= Z.of_nat (length (buf p)) ->
  viewport_loop_post sfs cs viewports n i p
    (viewport_loop gpu sfs cs viewports n i p).
Proof.
  intros Hi Hlen [Hsf [(-> & -> & H1 & H2) | (-> & -> & H1 & H2)]] Hcap.
  - apply (viewport_loop_shape true); try assumption. split; assumption.
  - apply (viewport_loop_shape false); try assumption. split; assumption.
Qed.

Lemma scissor_loop_ok (scissors : list VkRect2D) :
  forall (n : nat) (i : Z) (b : list Z) (sc : Z),
  0 <= i -> i + Z.of_nat n <= Z.of_nat (length scissors) ->
  0 <= sc -> sc + 2 * Z.of_nat n <= Z.of_nat (length b) ->
  exists b' sc',
    scissor_loop scissors n i b sc = Ok (b', sc') /\
    length b' = length b /\
    (forall idx, 0 <= idx -> idx < sc \/ sc + 2 * Z.of_nat n <= idx ->
       b' !! Z.to_nat idx = b !! Z.to_nat idx) /\
    (forall (j : nat) s, (j < n)%nat ->
       scissors !! (Z.to_nat i + j)%nat = Some s ->
       read_words b' (sc + 2 * Z.of_nat j) 2 = scissor_entry s).
Proof.
  intros n; induction n as [|n IH]; intros i b sc Hi Hlen Hsc Hcap.
  - exists b, sc. cbn [scissor_loop].
    split; [reflexivity|]. split; [reflexivity|].
    split; [intros; reflexivity | intros j s Hj; lia].
  - destruct (lookup_lt_is_Some_2 scissors (Z.to_nat i)) as [s0 Hs0]; [lia|].
    cbn [scissor_loop]. rewrite (fetch_bind scissors i s0 _ Hs0).
    rewrite scissor_body_ok by lia. cbn [bind fst snd].
    set (b1 := <[Z.to_nat (sc + 1) := snd (scissor_words s0)]>
                 (<[Z.to_nat (sc + 0) := fst (scissor_words s0)]> b)).
    assert (Hlen1 : length b1 = length b)
      by (unfold b1; rewrite !length_insert; reflexivity).
    destruct (IH (i + 1) b1 (sc + 2))
      as (b' & sc' & Hloop & Hlen' & Hpres' & Hent'); try lia.
    exists b', sc'. split; [exact Hloop|]. split; [congruence|]. split.
    + intros idx Hidx Hout. rewrite Hpres' by lia.
      unfold b1. peel_inserts. reflexivity.
    + intros j s Hj Hs. destruct j as [|j].
      * rewrite Nat.add_0_r in Hs. assert (s = s0) by congruence. subst s.
        replace (sc + 2 * Z.of_nat 0) with sc by lia.
        transitivity (read_words b1 sc 2).
        -- apply read_words_ext. intros k Hk.
           replace (Z.to_nat sc + k)%nat
             with (Z.to_nat (sc + Z.of_nat k)) by lia.
           apply Hpres'; lia.
        -- change 2%nat with (length (scissor_entry s0)).
           apply read_words_intro. intros k w Hk. unfold scissor_entry in Hk.
           unfold b1.
           do 2 (destruct k as [|k]; [injection Hk as <-; hit_insert|]).
           discriminate Hk.
      * replace (sc + 2 * Z.of_nat (S j)) with (sc + 2 + 2 * Z.of_nat j) by lia.
        apply Hent'; [lia|].
        replace (Z.to_nat (i + 1) + j)%nat with (Z.to_nat i + S j)%nat by lia.
        exact Hs.
Qed.

(** ** The encoder: the whole function *)

(** On a supported generation, a valid count and arrays of [count]
    elements, [set_viewport_state] returns; it leaves the layout of the
    planner, the SF entry of every viewport and the entry of every scissor
    in the buffer, and does not write beyond the planned length. *)
Lemma set_viewport_state_ok (c : intel_cmd) (count : Z)
    (viewports : list VkViewport) (scissors : list VkRect2D) :
  words_fit_uint32 ->
  gen_supported (dev_gpu c) ->
  0 <= count <= INTEL_MAX_VIEWPORTS ->
  cmd_allocated (bind_state_viewport c) ->
  Z.of_nat (length viewports) = count ->
  Z.of_nat (length scissors) = count ->
  let st := planned (bind_state_viewport c) (dev_gpu c) count in
  exists b',
    set_viewport_state c count viewports scissors =
      Ok (set_bind_state_viewport c (set_cmd st b')) /\
    length b' = length (cmd (bind_state_viewport c)) /\
    (forall (i : nat) vp, viewports !! i = Some vp ->
       read_words b' (sf_stride_of (dev_gpu c) * Z.of_nat i) 8 =
       spec_sf_entry vp) /\
    (forall (i : nat) s, scissors !! i = Some s ->
       read_words b' (cmd_scissor_rect_pos st + 2 * Z.of_nat i) 2 =
       scissor_entry s) /\
    (forall idx, cmd_len st <= idx ->
       b' !! Z.to_nat idx = cmd (bind_state_viewport c) !! Z.to_nat idx).
Proof.
  intros Hfit Hgen Hcount Halloc Hvps Hscs st.
  unfold cmd_allocated, CMD_WORDS in Halloc.
  unfold set_viewport_state.
  rewrite (INTEL_GPU_ASSERT_ok _ Hgen). cbn [bind].
  rewrite viewport_state_cmd_planned by assumption. cbn [bind].
  fold st.
  assert (Hst : cmd st = cmd (bind_state_viewport c) /\
    layout_inv (sf_stride_of (dev_gpu c)) (clip_stride_of (dev_gpu c))
      0 (cmd_clip_pos st) (cmd_cc_pos st) count /\
    cmd_cc_pos st + 2 * count = cmd_scissor_rect_pos st /\
    cmd_scissor_rect_pos st + 2 * count = cmd_len st /\
    cmd_len st <= 20 * INTEL_MAX_VIEWPORTS /\
    0 <= cmd_clip_pos st /\
    sf_stride_of (dev_gpu c) * count <= cmd_cc_pos st /\
    0 <= sf_stride_of (dev_gpu c)).
  { unfold st, planned, layout_inv, sf_stride_of, clip_stride_of.
    destruct (INTEL_GEN_7 <=? intel_gpu_gen (dev_gpu c));
      cbn [cmd cmd_len cmd_clip_pos cmd_cc_pos cmd_scissor_rect_pos];
      repeat split; lia. }
  destruct Hst as (Hcmd & Hinv & Hsc & Hlen & Hcap & Hclip0 & Hsfcc & Hsfs0).
  fold (sf_stride_of (dev_gpu c)). fold (clip_stride_of (dev_gpu c)).
  set (p0 := {| buf := cmd st; sf_viewport := 0;
                clip_viewport := cmd_clip_pos st;
                cc_viewport := cmd_cc_pos st |}).
  destruct (viewport_loop_ok (dev_gpu c) (sf_stride_of (dev_gpu c))
              (clip_stride_of (dev_gpu c)) viewports (Z.to_nat count) 0 p0)
    as (p1 & Hloop & Hlen1 & Hpres1 & Hsf1);
    try (unfold p0; cbn [buf sf_viewport clip_viewport cc_viewport];
         rewrite ?Z2Nat.id by lia; rewrite ?Hcmd; lia).
  { unfold p0; cbn [buf sf_viewport clip_viewport cc_viewport].
    rewrite Z2Nat.id by lia. exact Hinv. }
  rewrite Hloop. cbn [bind].
  unfold p0 in Hlen1, Hpres1, Hsf1.
  cbn [buf sf_viewport clip_viewport cc_viewport] in Hlen1, Hpres1, Hsf1.
  rewrite Hcmd in Hlen1, Hpres1.
  destruct (scissor_loop_ok scissors (Z.to_nat count) 0 (buf p1)
              (cmd_scissor_rect_pos st))
    as (b2 & sc' & Hloop2 & Hlen2 & Hpres2 & Hent2);
    try (rewrite ?Z2Nat.id by lia; lia).
  rewrite Hloop2. cbn [bind fst].
  exists b2. split; [reflexivity|]. split; [congruence|].
  rewrite Z2Nat.id in Hpres1, Hpres2 by lia.
  split; [|split].
  - intros i vp Hvp.
    assert (Hi : (i < Z.to_nat count)%nat)
      by (apply lookup_lt_Some in Hvp; lia).
    rewrite <- (Hsf1 i vp Hi) by exact Hvp.
    replace (0 + sf_stride_of (dev_gpu c) * Z.of_nat i)
      with (sf_stride_of (dev_gpu c) * Z.of_nat i) by lia.
    apply read_words_ext. intros k Hk.
    replace (Z.to_nat (sf_stride_of (dev_gpu c) * Z.of_nat i) + k)%nat
      with (Z.to_nat (sf_stride_of (dev_gpu c) * Z.of_nat i + Z.of_nat k))
      by nia.
    apply Hpres2; [nia|]. left.
    destruct Hinv as [_ [(E1 & _ & _ & _) | (E1 & _ & _ & _)]];
      rewrite E1 in *; lia.
  - intros i s Hs.
    assert (Hi : (i < Z.to_nat count)%nat)
      by (apply lookup_lt_Some in Hs; lia).
    apply (Hent2 i s Hi). exact Hs.
  - intros idx Hidx.
    rewrite Hpres2 by lia.
    apply Hpres1; [lia|].
    intros j Hj. unfold touches.
    destruct Hinv as [_ [(E1 & E2 & E3 & E4) | (E1 & E2 & E3 & E4)]];
      rewrite E1, E2 in *; lia.
Qed.

(** C3: for every viewport descriptor, the encoder computes
    [scale = (width/2, height/2, maxDepth - minDepth)] and
    [translate = (originX + scale.x, originY + scale.y, minDepth)] and
    writes the 8-word SF entry of the viewport, at the generation's
    per-viewport stride, as the bit patterns of [scale.x], [scale.y],
    [scale.z], [translate.x], [translate.y], [translate.z] followed by two
    zero words. *)
Theorem set_viewport_state_sf_entry (c : intel_cmd) (count : Z)
    (viewports : list VkViewport) (scissors : list VkRect2D)
    (i : nat) (vp : VkViewport) :
  words_fit_uint32 ->
  gen_supported (dev_gpu c) ->
  0 <= count <= INTEL_MAX_VIEWPORTS ->
  cmd_allocated (bind_state_viewport c) ->
  Z.of_nat (length viewports) = count ->
  Z.of_nat (length scissors) = count ->
  viewports !! i = Some vp ->
  exists c',
    set_viewport_state c count viewports scissors = Ok c' /\
    let '(scale_x, scale_y, scale_z) := spec_scale vp in
    let '(translate_x, translate_y, translate_z) := spec_translate vp in
    read_words (cmd (bind_state_viewport c'))
      (sf_stride_of (dev_gpu c) * Z.of_nat i) 8 =
    [u_fui scale_x; u_fui scale_y; u_fui scale_z;
     u_fui translate_x; u_fui translate_y; u_fui translate_z; 0; 0].
Proof.
  intros Hfit Hgen Hcount Halloc Hvps Hscs Hvp.
  destruct (set_viewport_state_ok c count viewports scissors
              Hfit Hgen Hcount Halloc Hvps Hscs)
    as (b' & Hrun & _ & Hsf & _).
  eexists. split; [exact Hrun|].
  cbn [bind_state_viewport set_bind_state_viewport cmd set_cmd].
  exact (Hsf i vp Hvp).
Qed.

Lemma scissor_words_degenerate (s : VkRect2D) :
  ext_width (extent s) = 0 \/ ext_height (extent s) = 0 ->
  scissor_words s = (0x00010001, 0).
Proof.
  intros H. unfold scissor_words.
  replace (negb (ext_width (extent s) =? 0) &&
           negb (ext_height (extent s) =? 0)) with false.
  - vm_compute. reflexivity.
  - symmetry. apply andb_false_iff.
    destruct H as [H | H]; [left | right];
      apply negb_false_iff, Z.eqb_eq, H.
Qed.

(** C4: for every scissor descriptor whose extent has width zero or height
    zero, whatever the other component and the offset, the encoder writes
    exactly [word0 = 0x00010001] and [word1 = 0]. *)
Theorem set_viewport_state_degenerate_scissor (c : intel_cmd) (count : Z)
    (viewports : list VkViewport) (scissors : list VkRect2D)
    (i : nat) (s : VkRect2D) :
  words_fit_uint32 ->
  gen_supported (dev_gpu c) ->
  0 <= count <= INTEL_MAX_VIEWPORTS ->
  cmd_allocated (bind_state_viewport c) ->
  Z.of_nat (length viewports) = count ->
  Z.of_nat (length scissors) = count ->
  scissors !! i = Some s ->
  ext_width (extent s) = 0 \/ ext_height (extent s) = 0 ->
  scissor_words s = (0x00010001, 0) /\
  exists c',
    set_viewport_state c count viewports scissors = Ok c' /\
    read_words (cmd (bind_state_viewport c'))
      (cmd_scissor_rect_pos (bind_state_viewport c') + 2 * Z.of_nat i) 2 =
    [0x00010001; 0].
Proof.
  intros Hfit Hgen Hcount Halloc Hvps Hscs Hs Hzero.
  pose proof (scissor_words_degenerate s Hzero) as Hw.
  split; [exact Hw|].
  destruct (set_viewport_state_ok c count viewports scissors
              Hfit Hgen Hcount Halloc Hvps Hscs)
    as (b' & Hrun & _ & _ & Hsc & _).
  eexists. split; [exact Hrun|].
  cbn [bind_state_viewport set_bind_state_viewport cmd set_cmd
       cmd_scissor_rect_pos].
  rewrite (Hsc i s Hs). unfold scissor_entry. rewrite Hw. reflexivity.
Qed.

(** C7 (as amended): after every invocation of the viewport/scissor-setting
    operation on a supported generation with a count between 1 and the
    hardware maximum, the four offsets increase strictly and end below the
    total length; the words written for the four sub-blocks (entries of 8,
    4, 2 and 2 words at the per-viewport strides) are pairwise disjoint and
    lie below the total length; the SF and CLIP entries together take
    [16 * count] words on generations 7 and above and [8 * count] and then
    [4 * count] words below generation 7, and the CC and scissor blocks
    [2 * count] words each. *)
Theorem set_viewport_state_layout (c : intel_cmd) (count : Z)
    (viewports : list VkViewport) (scissors : list VkRect2D) :
  words_fit_uint32 ->
  gen_supported (dev_gpu c) ->
  1 <= count <= INTEL_MAX_VIEWPORTS ->
  cmd_allocated (bind_state_viewport c) ->
  Z.of_nat (length viewports) = count ->
  Z.of_nat (length scissors) = count ->
  exists c',
    set_viewport_state c count viewports scissors = Ok c' /\
    let st := bind_state_viewport c' in
    let gpu := dev_gpu c in
    viewport_count st = count /\
    (0 < cmd_clip_pos st /\ cmd_clip_pos st < cmd_cc_pos st /\
     cmd_cc_pos st < cmd_scissor_rect_pos st /\
     cmd_scissor_rect_pos st < cmd_len st) /\
    (forall (m n : nat) A B idx,
       sub_blocks gpu st !! m = Some A -> sub_blocks gpu st !! n = Some B ->
       m <> n -> block_words A count idx -> ~ block_words B count idx) /\
    (forall (m : nat) A idx,
       sub_blocks gpu st !! m = Some A -> block_words A count idx ->
       0 <= idx < cmd_len st) /\
    (INTEL_GEN_7 <= intel_gpu_gen gpu ->
       cmd_clip_pos st = 8 /\ cmd_cc_pos st = 16 * count) /\
    (intel_gpu_gen gpu < INTEL_GEN_7 ->
       cmd_clip_pos st = 8 * count /\
       cmd_cc_pos st - cmd_clip_pos st = 4 * count) /\
    cmd_scissor_rect_pos st - cmd_cc_pos st = 2 * count /\
    cmd_len st - cmd_scissor_rect_pos st = 2 * count.
Proof.
  intros Hfit Hgen Hcount Halloc Hvps Hscs.
  destruct (set_viewport_state_ok c count viewports scissors
              Hfit Hgen ltac:(lia) Halloc Hvps Hscs)
    as (b' & Hrun & _).
  eexists. split; [exact Hrun|].
  cbn [bind_state_viewport set_bind_state_viewport].
  unfold sub_blocks, sf_stride_of, clip_stride_of, planned, set_cmd.
  destruct (INTEL_GEN_7 <=? intel_gpu_gen (dev_gpu c)) eqn:E;
    [apply Z.leb_le in E | apply Z.leb_gt in E];
    cbn [viewport_count cmd cmd_len cmd_clip_pos cmd_cc_pos
         cmd_scissor_rect_pos];
    (split; [reflexivity|]); (split; [lia|]);
    (split; [|split; [|repeat split; intros; lia]]).
  1, 3:
    intros m n A B idx HA HB Hmn HinA HinB;
    destruct m as [|[|[|[|m]]]]; cbn [lookup list_lookup] in HA;
    try discriminate HA;
    destruct n as [|[|[|[|n]]]]; cbn [lookup list_lookup] in HB;
    try discriminate HB; try (exfalso; apply Hmn; reflexivity);
    injection HA as <-; injection HB as <-;
    unfold block_words, entry_words in HinA, HinB;
    destruct HinA as (i1 & k1 & ? & ? & ?);
    destruct HinB as (i2 & k2 & ? & ? & ?); lia.
  all:
    intros m A idx HA HinA;
    destruct m as [|[|[|[|m]]]]; cbn [lookup list_lookup] in HA;
    try discriminate HA;
    injection HA as <-;
    unfold block_words, entry_words in HinA;
    destruct HinA as (i1 & k1 & ? & ? & ?); lia.
Qed.

(** ** The scissor words *)

Lemma land_ffff (z : Z) : Z.land z 0xffff = z mod 2 ^ 16.
Proof. change 0xffff with (Z.ones 16). apply Z.land_ones. lia. Qed.

Lemma to_int_mod32 (z : Z) : to_int z mod 2 ^ 32 = z mod 2 ^ 32.
Proof. unfold to_int. Z.div_mod_to_equations. lia. Qed.

Lemma to_int_mod16 (z : Z) : to_int z mod 2 ^ 16 = z mod 2 ^ 16.
Proof. unfold to_int. Z.div_mod_to_equations. lia. Qed.

Lemma to_int16_shl_mod32 (z : Z) :
  (to_int16 z * 2 ^ 16) mod 2 ^ 32 = (z mod 2 ^ 16) * 2 ^ 16.
Proof. unfold to_int16. Z.div_mod_to_equations. lia. Qed.

Lemma to_int16_id (z : Z) : 0 <= z < 2 ^ 15 -> to_int16 z = z.
Proof. unfold to_int16. intros H. Z.div_mod_to_equations. lia. Qed.

Lemma to_uint32_lor (a b : Z) :
  to_uint32 (Z.lor a b) = Z.lor (a mod 2 ^ 32) (b mod 2 ^ 32).
Proof.
  unfold to_uint32. rewrite <- !Z.land_ones by lia.
  apply Z.land_lor_distr_l.
Qed.

Lemma int_shl_16_mod32 (a : Z) :
  int_shl a 16 mod 2 ^ 32 = (a * 2 ^ 16) mod 2 ^ 32.
Proof.
  unfold int_shl. rewrite to_int_mod32, Z.shiftl_mul_pow2 by lia.
  reflexivity.
Qed.

(** The 32-bit [int] arithmetic does not show in the low 16 bits: the
    masked sums of the code are the masked sums of the specification. *)
Lemma masked_max_spec (o e : Z) :
  Z.land (int_sub (int_add o e) 1) 0xffff = Z.land (o + e - 1) 0xFFFF.
Proof.
  unfold int_sub, int_add. rewrite !land_ffff.
  rewrite to_int_mod16.
  rewrite Zminus_mod, to_int_mod16, <- Zminus_mod. reflexivity.
Qed.

Lemma lor_shiftl_16 (a b : Z) :
  0 <= b < 2 ^ 16 -> Z.lor (Z.shiftl a 16) b = a * 2 ^ 16 + b.
Proof.
  intros Hb.
  assert (Hland : Z.land (Z.shiftl a 16) b = 0).
  { apply Z.bits_inj'. intros n Hn.
    rewrite Z.land_spec, Z.bits_0.
    destruct (Z.lt_ge_cases n 16) as [Hlt | Hge].
    - rewrite Z.shiftl_spec_low by exact Hlt. reflexivity.
    - rewrite <- (Z.mod_small b (2 ^ 16)) by exact Hb.
      rewrite Z.mod_pow2_bits_high by lia. apply andb_false_r. }
  rewrite <- Z.lxor_lor by exact Hland.
  rewrite <- Z.add_nocarry_lxor by exact Hland.
  rewrite Z.shiftl_mul_pow2 by lia. reflexivity.
Qed.

(** For a scissor of nonzero width and height, [word0] is the word of the
    specification, and so is [word1] provided [max_x] is below [0x8000],
    that is provided it is not negative as an [int16_t]. *)
Lemma scissor_words_spec (s : VkRect2D) :
  ext_width (extent s) <> 0 ->
  ext_height (extent s) <> 0 ->
  fst (scissor_words s) = fst (spec_scissor_words s) /\
  (spec_scissor_max_x s < 2 ^ 15 ->
   snd (scissor_words s) = snd (spec_scissor_words s)).
Proof.
  intros Hw Hh. unfold scissor_words.
  apply Z.eqb_neq in Hw, Hh. rewrite Hw, Hh. cbn [negb andb fst snd].
  unfold spec_scissor_words. cbn [fst snd].
  pose proof (Z.mod_pos_bound (x (offset s)) (2 ^ 16) ltac:(lia)) as Bx.
  pose proof (Z.mod_pos_bound (y (offset s)) (2 ^ 16) ltac:(lia)) as By.
  split.
  - rewrite to_uint32_lor, int_shl_16_mod32, !land_ffff.
    rewrite Z.shiftl_mul_pow2 by lia.
    rewrite (Z.mod_small (x (offset s) mod 2 ^ 16) (2 ^ 32)) by lia.
    rewrite (Z.mod_small (y (offset s) mod 2 ^ 16 * 2 ^ 16) (2 ^ 32)) by lia.
    reflexivity.
  - intros Hmax.
    unfold scissor_max_x, scissor_max_y. rewrite !masked_max_spec.
    fold (spec_scissor_max_x s). fold (spec_scissor_max_y s).
    assert (Bmx : 0 <= spec_scissor_max_x s < 2 ^ 16)
      by (unfold spec_scissor_max_x; rewrite land_ffff;
          apply Z.mod_pos_bound; lia).
    assert (Bmy : 0 <= spec_scissor_max_y s < 2 ^ 16)
      by (unfold spec_scissor_max_y; rewrite land_ffff;
          apply Z.mod_pos_bound; lia).
    rewrite (to_int16_id (spec_scissor_max_x s)) by lia.
    rewrite to_uint32_lor, int_shl_16_mod32, to_int16_shl_mod32.
    rewrite Z.shiftl_mul_pow2 by lia.
    rewrite (Z.mod_small (spec_scissor_max_y s) (2 ^ 16)) by lia.
    rewrite (Z.mod_small (spec_scissor_max_x s) (2 ^ 32)) by lia.
    reflexivity.
Qed.

(** Decoding the words of the specification by the documented shifts
    returns the offset and the maxima, each masked to 16 bits. *)
Lemma decode_spec_scissor_words (s : VkRect2D) :
  decode_scissor (spec_scissor_words s) =
  (Z.land (x (offset s)) 0xFFFF, Z.land (y (offset s)) 0xFFFF,
   spec_scissor_max_x s, spec_scissor_max_y s).
Proof.
  assert (Hdec : forall a b, 0 <= a < 2 ^ 16 -> 0 <= b < 2 ^ 16 ->
            Z.land (Z.lor (Z.shiftl a 16) b) 0xFFFF = b /\
            Z.land (Z.shiftr (Z.lor (Z.shiftl a 16) b) 16) 0xFFFF = a).
  { intros a b Ha Hb. rewrite lor_shiftl_16 by exact Hb.
    rewrite Z.shiftr_div_pow2 by lia. rewrite !land_ffff.
    split; Z.div_mod_to_equations; lia. }
  assert (B : forall z, 0 <= Z.land z 0xFFFF < 2 ^ 16)
    by (intros z; rewrite land_ffff; apply Z.mod_pos_bound; lia).
  unfold decode_scissor, spec_scissor_words. cbn [fst snd].
  destruct (Hdec (Z.land (y (offset s)) 0xFFFF) (Z.land (x (offset s)) 0xFFFF)
              (B _) (B _)) as [-> ->].
  destruct (Hdec (spec_scissor_max_y s) (spec_scissor_max_x s)
              (B _) (B _)) as [-> ->].
  reflexivity.
Qed.

(** ** The stencil setters: properties *)

Ltac stencil_frame :=
  unfold written_iff, face_selected;
  repeat match goal with
  | |- context [Z.land ?m ?b =? 0] =>
      let E := fresh "E" in
      destruct (Z.land m b =? 0) eqn:E;
      [apply Z.eqb_eq in E | apply Z.eqb_neq in E]
  end;
  cbn; repeat split; intros; try reflexivity; try contradiction;
  try congruence.

(** C10: each of the three stencil setters writes the front-face field if
    and only if the front bit is set in [faceMask], and the back-face field
    if and only if the back bit is set; it never modifies the other two
    stencil fields of either face (nor the rest of the command state), and
    a call with [faceMask = 0] leaves the state unchanged. *)
Theorem stencil_setters_frame (c : intel_cmd) (faceMask v : Z) :
  let st := bind_state_stencil c in
  let front_bit := Z.land faceMask VK_STENCIL_FACE_FRONT_BIT <> 0 in
  let back_bit := Z.land faceMask VK_STENCIL_FACE_BACK_BIT <> 0 in
  (let c' := vkCmdSetStencilCompareMask c faceMask v in
   let st' := bind_state_stencil c' in
   written_iff front_bit (stencil_compare_mask (front st))
     (stencil_compare_mask (front st')) v /\
   written_iff back_bit (stencil_compare_mask (back st))
     (stencil_compare_mask (back st')) v /\
   stencil_write_mask (front st') = stencil_write_mask (front st) /\
   stencil_write_mask (back st') = stencil_write_mask (back st) /\
   stencil_reference (front st') = stencil_reference (front st) /\
   stencil_reference (back st') = stencil_reference (back st) /\
   dev_gpu c' = dev_gpu c /\
   bind_state_viewport c' = bind_state_viewport c) /\
  (let c' := vkCmdSetStencilWriteMask c faceMask v in
   let st' := bind_state_stencil c' in
   written_iff front_bit (stencil_write_mask (front st))
     (stencil_write_mask (front st')) v /\
   written_iff back_bit (stencil_write_mask (back st))
     (stencil_write_mask (back st')) v /\
   stencil_compare_mask (front st') = stencil_compare_mask (front st) /\
   stencil_compare_mask (back st') = stencil_compare_mask (back st) /\
   stencil_reference (front st') = stencil_reference (front st) /\
   stencil_reference (back st') = stencil_reference (back st) /\
   dev_gpu c' = dev_gpu c /\
   bind_state_viewport c' = bind_state_viewport c) /\
  (let c' := vkCmdSetStencilReference c faceMask v in
   let st' := bind_state_stencil c' in
   written_iff front_bit (stencil_reference (front st))
     (stencil_reference (front st')) v /\
   written_iff back_bit (stencil_reference (back st))
     (stencil_reference (back st')) v /\
   stencil_compare_mask (front st') = stencil_compare_mask (front st) /\
   stencil_compare_mask (back st') = stencil_compare_mask (back st) /\
   stencil_write_mask (front st') = stencil_write_mask (front st) /\
   stencil_write_mask (back st') = stencil_write_mask (back st) /\
   dev_gpu c' = dev_gpu c /\
   bind_state_viewport c' = bind_state_viewport c) /\
  (faceMask = 0 ->
   vkCmdSetStencilCompareMask c faceMask v = c /\
   vkCmdSetStencilWriteMask c faceMask v = c /\
   vkCmdSetStencilReference c faceMask v = c).
Proof.
  cbv zeta. split; [|split; [|split]].
  - unfold vkCmdSetStencilCompareMask. stencil_frame.
  - unfold vkCmdSetStencilWriteMask. stencil_frame.
  - unfold vkCmdSetStencilReference. stencil_frame.
  - intros ->.
    unfold vkCmdSetStencilCompareMask, vkCmdSetStencilWriteMask,
      vkCmdSetStencilReference, face_selected.
    rewrite !Z.land_0_l. cbn. repeat split.
Qed.

(** ** The guardband calculator: further properties *)

(** A center whose guardband lies inside the valid extent is not moved:
    the guardband is [center - 4096, center + 4096] on each axis. *)
Theorem viewport_get_guardband_interior
    (gpu : intel_gpu) (center_x center_y : Z) :
  - max_extent_of gpu <= center_x - 4096 ->
  center_x + 4096 <= max_extent_of gpu - 1 ->
  - max_extent_of gpu <= center_y - 4096 ->
  center_y + 4096 <= max_extent_of gpu - 1 ->
  viewport_get_guardband gpu center_x center_y =
  (center_x - 4096, center_x + 4096, center_y - 4096, center_y + 4096).
Proof.
  intros Hx1 Hx2 Hy1 Hy2.
  destruct (max_extent_of_cases gpu) as [_ Hcases].
  assert (Hx : center_in_range center_x)
    by (unfold center_in_range, INT_MIN, INT_MAX; lia).
  assert (Hy : center_in_range center_y)
    by (unfold center_in_range, INT_MIN, INT_MAX; lia).
  unfold viewport_get_guardband. change (8192 / 2) with 4096.
  destruct (guardband_axis (max_extent_of gpu) center_x Hcases Hx)
    as [-> ->].
  destruct (guardband_axis (max_extent_of gpu) center_y Hcases Hy)
    as [-> ->].
  unfold spec_clamp.
  replace (center_x - 4096 <? - max_extent_of gpu) with false
    by (symmetry; apply Z.ltb_ge; lia).
  replace (max_extent_of gpu - 1 <? center_x + 4096) with false
    by (symmetry; apply Z.ltb_ge; lia).
  replace (center_y - 4096 <? - max_extent_of gpu) with false
    by (symmetry; apply Z.ltb_ge; lia).
  replace (max_extent_of gpu - 1 <? center_y + 4096) with false
    by (symmetry; apply Z.ltb_ge; lia).
  reflexivity.
Qed.

(** Whatever the center (in the range of the [int] arithmetic), the
    guardband is 8192 wide on each axis and lies in [-extent, extent];
    it contains every center that is a valid coordinate. *)
Theorem viewport_get_guardband_bounds
    (gpu : intel_gpu) (center_x center_y : Z) :
  center_in_range center_x ->
  center_in_range center_y ->
  let extent := max_extent_of gpu in
  let '(min_gbx, max_gbx, min_gby, max_gby) :=
    viewport_get_guardband gpu center_x center_y in
  max_gbx - min_gbx = 8192 /\ max_gby - min_gby = 8192 /\
  - extent <= min_gbx /\ max_gbx <= extent /\
  - extent <= min_gby /\ max_gby <= extent /\
  (- extent <= center_x <= extent - 1 -> min_gbx <= center_x <= max_gbx) /\
  (- extent <= center_y <= extent - 1 -> min_gby <= center_y <= max_gby).
Proof.
  intros Hx Hy.
  destruct (max_extent_of_cases gpu) as [_ Hcases].
  cbv zeta. unfold viewport_get_guardband. change (8192 / 2) with 4096.
  destruct (guardband_axis (max_extent_of gpu) center_x Hcases Hx)
    as [-> ->].
  destruct (guardband_axis (max_extent_of gpu) center_y Hcases Hy)
    as [-> ->].
  unfold spec_clamp.
  destruct (center_x - 4096 <? - max_extent_of gpu) eqn:X1;
    [apply Z.ltb_lt in X1 | apply Z.ltb_ge in X1];
    [|destruct (max_extent_of gpu - 1 <? center_x + 4096) eqn:X2;
      [apply Z.ltb_lt in X2 | apply Z.ltb_ge in X2]];
    (destruct (center_y - 4096 <? - max_extent_of gpu) eqn:Y1;
      [apply Z.ltb_lt in Y1 | apply Z.ltb_ge in Y1];
      [|destruct (max_extent_of gpu - 1 <? center_y + 4096) eqn:Y2;
        [apply Z.ltb_lt in Y2 | apply Z.ltb_ge in Y2]]);
    repeat split; intros; lia.
Qed.

(** ** The entry point: aborts and the empty call *)

Lemma gen_supportedb_spec (gpu : intel_gpu) :
  gen_supportedb gpu = true <-> gen_supported gpu.
Proof.
  unfold gen_supportedb, gen_supported.
  rewrite andb_true_iff, !Z.leb_le. tauto.
Qed.

Lemma INTEL_GPU_ASSERT_fail (gpu : intel_gpu) :
  ~ gen_supported gpu -> INTEL_GPU_ASSERT gpu = Err gpu_assert.
Proof.
  intros H. unfold INTEL_GPU_ASSERT. fold (gen_supportedb gpu).
  destruct (gen_supportedb gpu) eqn:E; [|reflexivity].
  exfalso. apply H, gen_supportedb_spec, E.
Qed.

(** On a generation outside the supported range the encoder aborts at its
    first assertion, whatever the count and the arrays. *)
Theorem set_viewport_state_gen_abort (c : intel_cmd) (count : Z)
    (viewports : list VkViewport) (scissors : list VkRect2D) :
  ~ gen_supported (dev_gpu c) ->
  set_viewport_state c count viewports scissors = Err gpu_assert.
Proof.
  intros H. unfold set_viewport_state.
  rewrite (INTEL_GPU_ASSERT_fail _ H). reflexivity.
Qed.

(** A count above the hardware maximum aborts at the count assertion of
    the planner, before anything is written. *)
Theorem set_viewport_state_count_abort (c : intel_cmd) (count : Z)
    (viewports : list VkViewport) (scissors : list VkRect2D) :
  gen_supported (dev_gpu c) ->
  INTEL_MAX_VIEWPORTS < count ->
  set_viewport_state c count viewports scissors = Err count_assert.
Proof.
  intros Hgen Hcount. unfold set_viewport_state.
  rewrite (INTEL_GPU_ASSERT_ok _ Hgen). cbn [bind].
  rewrite viewport_state_cmd_count_abort by assumption. reflexivity.
Qed.

(** A call with count 0 returns without reading the arrays or writing the
    buffer: the buffer is unchanged, the viewport count and the total
    length are 0. *)
Theorem set_viewport_state_empty (c : intel_cmd)
    (viewports : list VkViewport) (scissors : list VkRect2D) :
  gen_supported (dev_gpu c) ->
  0 <= INTEL_MAX_VIEWPORTS ->
  exists c',
    set_viewport_state c 0 viewports scissors = Ok c' /\
    cmd (bind_state_viewport c') = cmd (bind_state_viewport c) /\
    viewport_count (bind_state_viewport c') = 0 /\
    cmd_len (bind_state_viewport c') = 0 /\
    cmd_cc_pos (bind_state_viewport c') = 0 /\
    cmd_scissor_rect_pos (bind_state_viewport c') = 0 /\
    dev_gpu c' = dev_gpu c /\
    bind_state_stencil c' = bind_state_stencil c.
Proof.
  intros Hgen Hmax. unfold set_viewport_state, viewport_state_cmd.
  rewrite (INTEL_GPU_ASSERT_ok _ Hgen). cbn [bind].
  assert (Hc : (0 <=? INTEL_MAX_VIEWPORTS) = true) by (apply Z.leb_le; lia).
  rewrite Hc. cbn [assert bind].
  change (Z.to_nat 0) with 0%nat.
  assert (Hcap : (sizeof_uint32 * 0 <=? sizeof_cmd) = true)
    by (apply Z.leb_le; unfold sizeof_cmd, sizeof_uint32, CMD_WORDS; lia).
  destruct (INTEL_GEN_7 <=? intel_gpu_gen (dev_gpu c));
    cbn [set_cmd_len set_cmd_clip_pos set_cmd_cc_pos set_cmd_scissor_rect_pos
         set_viewport_count viewport_count cmd cmd_len cmd_clip_pos
         cmd_cc_pos cmd_scissor_rect_pos];
    change (u32_mul 16 0) with 0; change (u32_mul 8 0) with 0;
    change (u32_mul 4 0) with 0; change (u32_mul 2 0) with 0;
    do 3 (change (u32_add 0 0) with 0);
    rewrite Hcap; cbn [assert bind viewport_loop scissor_loop fst buf];
    eexists; (split; [reflexivity|]); cbn; repeat split.
Qed.

(** ** The stencil setters: composition *)

Lemma face_selected_lor (m1 m2 bit : Z) :
  face_selected (Z.lor m1 m2) bit =
  face_selected m1 bit || face_selected m2 bit.
Proof.
  unfold face_selected. rewrite Z.land_lor_distr_l.
  destruct (Z.land m1 bit =? 0) eqn:E1; destruct (Z.land m2 bit =? 0) eqn:E2;
    cbn [negb orb];
    [apply Z.eqb_eq in E1, E2 | apply Z.eqb_eq in E1; apply Z.eqb_neq in E2
    | apply Z.eqb_neq in E1 | apply Z.eqb_neq in E1];
    try (apply negb_false_iff, Z.eqb_eq, Z.lor_eq_0_iff; split; assumption);
    apply negb_true_iff, Z.eqb_neq; rewrite Z.lor_eq_0_iff; tauto.
Qed.

Ltac stencil_cases :=
  repeat match goal with
  | |- context [face_selected ?m ?b] =>
      destruct (face_selected m b)
  end;
  cbn [orb]; try reflexivity.

(** Setting a value through the union of two face masks is setting it
    through one mask and then through the other. *)
Theorem stencil_setters_mask_union (c : intel_cmd) (m1 m2 v : Z) :
  vkCmdSetStencilCompareMask c (Z.lor m1 m2) v =
    vkCmdSetStencilCompareMask (vkCmdSetStencilCompareMask c m1 v) m2 v /\
  vkCmdSetStencilWriteMask c (Z.lor m1 m2) v =
    vkCmdSetStencilWriteMask (vkCmdSetStencilWriteMask c m1 v) m2 v /\
  vkCmdSetStencilReference c (Z.lor m1 m2) v =
    vkCmdSetStencilReference (vkCmdSetStencilReference c m1 v) m2 v.
Proof.
  unfold vkCmdSetStencilCompareMask, vkCmdSetStencilWriteMask,
    vkCmdSetStencilReference.
  rewrite !face_selected_lor.
  destruct c as [g vs [f b]].
  repeat split; stencil_cases.
Qed.

(** A setter called twice with the same face mask keeps the second value:
    the first call has no lasting effect. *)
Theorem stencil_setters_last_write (c : intel_cmd) (m v1 v2 : Z) :
  vkCmdSetStencilCompareMask (vkCmdSetStencilCompareMask c m v1) m v2 =
    vkCmdSetStencilCompareMask c m v2 /\
  vkCmdSetStencilWriteMask (vkCmdSetStencilWriteMask c m v1) m v2 =
    vkCmdSetStencilWriteMask c m v2 /\
  vkCmdSetStencilReference (vkCmdSetStencilReference c m v1) m v2 =
    vkCmdSetStencilReference c m v2.
Proof.
  unfold vkCmdSetStencilCompareMask, vkCmdSetStencilWriteMask,
    vkCmdSetStencilReference.
  destruct c as [g vs [f b]].
  repeat split; stencil_cases.
Qed.

(** Setters of different stencil values commute, whatever the face masks
    and the values. *)
Theorem stencil_setters_commute (c : intel_cmd) (m1 m2 v1 v2 : Z) :
  vkCmdSetStencilWriteMask (vkCmdSetStencilCompareMask c m1 v1) m2 v2 =
    vkCmdSetStencilCompareMask (vkCmdSetStencilWriteMask c m2 v2) m1 v1 /\
  vkCmdSetStencilReference (vkCmdSetStencilCompareMask c m1 v1) m2 v2 =
    vkCmdSetStencilCompareMask (vkCmdSetStencilReference c m2 v2) m1 v1 /\
  vkCmdSetStencilReference (vkCmdSetStencilWriteMask c m1 v1) m2 v2 =
    vkCmdSetStencilWriteMask (vkCmdSetStencilReference c m2 v2) m1 v1.
Proof.
  unfold vkCmdSetStencilCompareMask, vkCmdSetStencilWriteMask,
    vkCmdSetStencilReference.
  destruct c as [g vs [f b]].
  repeat split; stencil_cases.
Qed.

(** The encoder reads the GPU and the viewport state of the command only,
    and returns the command with a new viewport state. *)
Lemma set_viewport_state_frame (c : intel_cmd) (count : Z)
    (viewports : list VkViewport) (scissors : list VkRect2D) :
  forall s' : intel_dynamic_stencil,
  set_viewport_state (set_bind_state_stencil c s') count viewports scissors =
  result_map (fun c' => set_bind_state_stencil c' s')
    (set_viewport_state c count viewports scissors).
Proof.
  intros s'. unfold set_viewport_state.
  cbn [set_bind_state_stencil dev_gpu bind_state_viewport].
  destruct (INTEL_GPU_ASSERT (dev_gpu c)); [|reflexivity]. cbn [bind].
  destruct (viewport_state_cmd _ _ _); [|reflexivity]. cbn [bind].
  destruct (viewport_loop _ _ _ _ _ _ _); [|reflexivity]. cbn [bind].
  destruct (scissor_loop _ _ _ _ _); [|reflexivity]. cbn [bind].
  reflexivity.
Qed.

(** Setting the viewports and setting a stencil value commute: the
    encoder neither reads nor writes the stencil state, and the stencil
    setters leave the GPU and the viewport state alone. *)
Theorem set_viewport_state_stencil_commute (c : intel_cmd) (count : Z)
    (viewports : list VkViewport) (scissors : list VkRect2D)
    (m v : Z) :
  set_viewport_state (vkCmdSetStencilCompareMask c m v) count
    viewports scissors =
  result_map (fun c' => vkCmdSetStencilCompareMask c' m v)
    (set_viewport_state c count viewports scissors) /\
  set_viewport_state (vkCmdSetStencilWriteMask c m v) count
    viewports scissors =
  result_map (fun c' => vkCmdSetStencilWriteMask c' m v)
    (set_viewport_state c count viewports scissors) /\
  set_viewport_state (vkCmdSetStencilReference c m v) count
    viewports scissors =
  result_map (fun c' => vkCmdSetStencilReference c' m v)
    (set_viewport_state c count viewports scissors).
Proof.
  assert (Hout : forall c0 b,
    set_viewport_state c0 count viewports scissors = Ok b ->
    bind_state_stencil b = bind_state_stencil c0 /\
    b = set_bind_state_viewport c0 (bind_state_viewport b)).
  { intros c0 b. unfold set_viewport_state.
    destruct (INTEL_GPU_ASSERT (dev_gpu c0)); [|discriminate]. cbn [bind].
    destruct (viewport_state_cmd _ _ _); [|discriminate]. cbn [bind].
    destruct (viewport_loop _ _ _ _ _ _ _); [|discriminate]. cbn [bind].
    destruct (scissor_loop _ _ _ _ _); [|discriminate]. cbn [bind].
    intros [= <-]. split; reflexivity. }
  unfold vkCmdSetStencilCompareMask, vkCmdSetStencilWriteMask,
    vkCmdSetStencilReference.
  cbv zeta.
  repeat split;
    destruct (face_selected m VK_STENCIL_FACE_FRONT_BIT);
    destruct (face_selected m VK_STENCIL_FACE_BACK_BIT);
    rewrite ?set_viewport_state_frame;
    destruct (set_viewport_state c count viewports scissors) as [b|e] eqn:E;
    cbn [result_map]; try reflexivity;
    destruct (Hout c b E) as [Hs Hb];
    rewrite Hb; cbn [set_bind_state_viewport set_bind_state_stencil
      bind_state_stencil dev_gpu bind_state_viewport];
    reflexivity.
Qed.

(** ** The scissor words: the two cases of [max_x] *)

Lemma to_int16_neg_mod32 (z : Z) :
  2 ^ 15 <= z < 2 ^ 16 -> to_int16 z mod 2 ^ 32 = 2 ^ 32 - 2 ^ 16 + z.
Proof. unfold to_int16. intros H. Z.div_mod_to_equations. lia. Qed.

Lemma lor_ffff (a : Z) : 0 <= a < 2 ^ 16 -> Z.lor a 0xFFFF = 0xFFFF.
Proof.
  intros [H0 H1]. change 0xFFFF with (Z.ones 16).
  destruct (Z.eq_dec a 0) as [-> | Hne]; [reflexivity|].
  apply Z.lor_ones_low; [exact H0|].
  apply Z.log2_lt_pow2; lia.
Qed.

Lemma spec_scissor_max_bounds (s : VkRect2D) :
  0 <= spec_scissor_max_x s < 2 ^ 16 /\ 0 <= spec_scissor_max_y s < 2 ^ 16.
Proof.
  unfold spec_scissor_max_x, spec_scissor_max_y. rewrite !land_ffff.
  split; apply Z.mod_pos_bound; lia.
Qed.

(** For a scissor of nonzero width and height whose [max_x] is below
    [0x8000], the two words are the words of the packing formula, and
    decoding them by the shifts returns the offset and the maxima, each
    masked to 16 bits. *)
Theorem scissor_words_round_trip (s : VkRect2D) :
  ext_width (extent s) <> 0 ->
  ext_height (extent s) <> 0 ->
  spec_scissor_max_x s < 2 ^ 15 ->
  scissor_words s = spec_scissor_words s /\
  decode_scissor (scissor_words s) =
  (Z.land (x (offset s)) 0xFFFF, Z.land (y (offset s)) 0xFFFF,
   Z.land (x (offset s) + ext_width (extent s) - 1) 0xFFFF,
   Z.land (y (offset s) + ext_height (extent s) - 1) 0xFFFF).
Proof.
  intros Hw Hh Hmax.
  destruct (scissor_words_spec s Hw Hh) as [H0 H1].
  specialize (H1 Hmax).
  assert (E : scissor_words s = spec_scissor_words s).
  { destruct (scissor_words s), (spec_scissor_words s).
    cbn [fst snd] in H0, H1. congruence. }
  split; [exact E|].
  rewrite E. apply decode_spec_scissor_words.
Qed.

(** For a scissor of nonzero width and height whose [max_x] is [0x8000]
    or more, the upper half of [word1] is [0xFFFF] whatever [max_y] is:
    the word is [0xFFFF0000 + max_x], and its decoded [maxY] is 65535. *)
Theorem scissor_word1_sign_extended (s : VkRect2D) :
  ext_width (extent s) <> 0 ->
  ext_height (extent s) <> 0 ->
  2 ^ 15 <= spec_scissor_max_x s ->
  snd (scissor_words s) = 0xFFFF0000 + spec_scissor_max_x s /\
  Z.land (Z.shiftr (snd (scissor_words s)) 16) 0xFFFF = 0xFFFF.
Proof.
  intros Hw Hh Hmax.
  destruct (spec_scissor_max_bounds s) as [Bx By].
  assert (E : snd (scissor_words s) = 0xFFFF0000 + spec_scissor_max_x s).
  { unfold scissor_words.
    apply Z.eqb_neq in Hw, Hh. rewrite Hw, Hh. cbn [negb andb fst snd].
    unfold scissor_max_x, scissor_max_y. rewrite !masked_max_spec.
    fold (spec_scissor_max_x s). fold (spec_scissor_max_y s).
    rewrite to_uint32_lor, int_shl_16_mod32, to_int16_shl_mod32.
    rewrite to_int16_neg_mod32 by lia.
    rewrite (Z.mod_small (spec_scissor_max_y s) (2 ^ 16)) by lia.
    replace (2 ^ 32 - 2 ^ 16 + spec_scissor_max_x s)
      with (0xFFFF * 2 ^ 16 + spec_scissor_max_x s) by lia.
    rewrite <- (lor_shiftl_16 0xFFFF) by lia.
    rewrite <- (Z.shiftl_mul_pow2 (spec_scissor_max_y s) 16) by lia.
    rewrite Z.lor_assoc, <- Z.shiftl_lor, lor_ffff by lia.
    rewrite lor_shiftl_16 by lia. reflexivity. }
  split; [exact E|].
  rewrite E, Z.shiftr_div_pow2, land_ffff by lia.
  Z.div_mod_to_equations. lia.
Qed.

(** ** The encoder: the CLIP and CC entries *)

Lemma viewport_body_entries (gpu : intel_gpu) (sfs cs : Z) (vp : VkViewport)
    (p p' : viewport_cursor) :
  0 <= sf_viewport p -> 0 <= clip_viewport p -> 0 <= cc_viewport p ->
  sf_viewport p + 8 <= Z.of_nat (length (buf p)) ->
  clip_viewport p + 4 <= Z.of_nat (length (buf p)) ->
  cc_viewport p + 2 <= Z.of_nat (length (buf p)) ->
  cc_viewport p + 2 <= clip_viewport p \/
  clip_viewport p + 4 <= cc_viewport p ->
  viewport_body gpu sfs cs vp p = Ok p' ->
  read_words (buf p') (clip_viewport p) 4 = clip_entry gpu vp /\
  read_words (buf p') (cc_viewport p) 2 = cc_entry vp.
Proof.
  intros Hsf Hclip Hcc Lsf Lclip Lcc D.
  unfold viewport_body, clip_entry.
  destruct (viewport_get_guardband gpu _ _)
    as [[[min_gbx max_gbx] min_gby] max_gby].
  do 14 (rewrite store_bind by (rewrite ?length_insert; lia)).
  intros [= <-]. cbn [buf]. split.
  - match goal with
    | |- read_words _ _ _ = ?ws => change 4%nat with (length ws)
    end.
    apply read_words_intro. intros k w Hk.
    do 4 (destruct k as [|k]; [injection Hk as <-; hit_insert|]).
    discriminate Hk.
  - change 2%nat with (length (cc_entry vp)).
    apply read_words_intro. intros k w Hk. unfold cc_entry in Hk.
    do 2 (destruct k as [|k]; [injection Hk as <-; hit_insert|]).
    discriminate Hk.
Qed.

Lemma viewport_loop_entries (interleaved : bool) (gpu : intel_gpu)
    (viewports : list VkViewport) :
  forall (n : nat) (i : Z) (p p' : viewport_cursor),
  0 <= i -> i + Z.of_nat n <= Z.of_nat (length viewports) ->
  0 <= sf_viewport p ->
  shape interleaved (sf_viewport p) (clip_viewport p) (cc_viewport p)
    (Z.of_nat n) ->
  cc_viewport p + 2 * Z.of_nat n <= Z.of_nat (length (buf p)) ->
  viewport_loop gpu (stride_sf interleaved) (stride_clip interleaved)
    viewports n i p = Ok p' ->
  forall (j : nat) vp, (j < n)%nat ->
    viewports !! (Z.to_nat i + j)%nat = Some vp ->
    read_words (buf p')
      (clip_viewport p + stride_clip interleaved * Z.of_nat j) 4 =
      clip_entry gpu vp /\
    read_words (buf p') (cc_viewport p + 2 * Z.of_nat j) 2 = cc_entry vp.
Proof.
  intros n; induction n as [|n IH];
    intros i p p' Hi Hlen Hsf Hshape Hcap Hrun j vp Hj Hvp; [lia|].
  destruct (lookup_lt_is_Some_2 viewports (Z.to_nat i)) as [vp0 Hvp0]; [lia|].
  cbn [viewport_loop] in Hrun.
  rewrite (fetch_bind viewports i vp0 _ Hvp0) in Hrun.
  assert (Hin : clip_viewport p + 4 <= cc_viewport p /\
                0 <= clip_viewport p /\
                sf_viewport p + 8 <= Z.of_nat (length (buf p)) /\
                clip_viewport p + 4 <= Z.of_nat (length (buf p)))
    by (destruct interleaved; cbn [shape] in Hshape; lia).
  destruct Hin as (D & Hclip & Lsf & Lclip).
  destruct (viewport_body gpu (stride_sf interleaved)
              (stride_clip interleaved) vp0 p) as [p1|] eqn:Hbody;
    [|discriminate Hrun].
  cbn [bind] in Hrun.
  destruct (viewport_body_ok gpu (stride_sf interleaved)
              (stride_clip interleaved) vp0 p)
    as (b1 & Hbody' & Hlen1 & _); try lia.
  rewrite Hbody in Hbody'. injection Hbody' as ->.
  destruct (viewport_body_entries gpu (stride_sf interleaved)
              (stride_clip interleaved) vp0 p _
              ltac:(lia) ltac:(lia) ltac:(lia) ltac:(lia) ltac:(lia)
              ltac:(lia) ltac:(lia) Hbody) as [Hclip1 Hcc1].
  cbn [buf] in Hclip1, Hcc1.
  set (p1 := {| buf := b1;
                sf_viewport := sf_viewport p + stride_sf interleaved;
                clip_viewport := clip_viewport p + stride_clip interleaved;
                cc_viewport := cc_viewport p + 2 |}) in *.
  assert (Hshape1 : shape interleaved (sf_viewport p1) (clip_viewport p1)
                      (cc_viewport p1) (Z.of_nat n))
    by (unfold p1; destruct interleaved;
        cbn [shape stride_sf stride_clip sf_viewport clip_viewport
             cc_viewport] in *; lia).
  assert (Hsf1 : 0 <= sf_viewport p1)
    by (unfold p1; destruct interleaved;
        cbn [stride_sf sf_viewport]; lia).
  assert (Hcap1 : cc_viewport p1 + 2 * Z.of_nat n
                  <= Z.of_nat (length (buf p1)))
    by (unfold p1; cbn [cc_viewport buf]; lia).
  destruct j as [|j].
  - rewrite Nat.add_0_r in Hvp. assert (vp = vp0) by congruence. subst vp.
    destruct (viewport_loop_shape interleaved gpu viewports n (i + 1) p1
                ltac:(lia) ltac:(lia) Hsf1 Hshape1 Hcap1)
      as (p'' & Hloop & _ & Hpres & _).
    rewrite Hrun in Hloop. injection Hloop as <-.
    rewrite <- Hclip1, <- Hcc1.
    replace (clip_viewport p + stride_clip interleaved * Z.of_nat 0)
      with (clip_viewport p) by lia.
    replace (cc_viewport p + 2 * Z.of_nat 0) with (cc_viewport p) by lia.
    split; apply read_words_ext; intros k Hk.
    + replace (Z.to_nat (clip_viewport p) + k)%nat
        with (Z.to_nat (clip_viewport p + Z.of_nat k)) by lia.
      apply Hpres; [lia|]. intros j' Hj'. unfold touches, p1.
      destruct interleaved;
        cbn [shape stride_sf stride_clip sf_viewport clip_viewport
             cc_viewport] in *; lia.
    + replace (Z.to_nat (cc_viewport p) + k)%nat
        with (Z.to_nat (cc_viewport p + Z.of_nat k)) by lia.
      apply Hpres; [lia|]. intros j' Hj'. unfold touches, p1.
      destruct interleaved;
        cbn [shape stride_sf stride_clip sf_viewport clip_viewport
             cc_viewport] in *; lia.
  - replace (clip_viewport p + stride_clip interleaved * Z.of_nat (S j))
      with (clip_viewport p1 + stride_clip interleaved * Z.of_nat j)
      by (unfold p1; cbn [clip_viewport]; destruct interleaved;
          cbn [stride_clip]; lia).
    replace (cc_viewport p + 2 * Z.of_nat (S j))
      with (cc_viewport p1 + 2 * Z.of_nat j)
      by (unfold p1; cbn [cc_viewport]; lia).
    apply (IH (i + 1) p1 p'); try assumption; try lia.
    replace (Z.to_nat (i + 1) + j)%nat with (Z.to_nat i + S j)%nat by lia.
    exact Hvp.
Qed.

(** ** The encoder: what the buffer holds after the call *)

(** The two loops of [set_viewport_state] on a valid call. *)
Lemma set_viewport_state_run (c : intel_cmd) (count : Z)
    (viewports : list VkViewport) (scissors : list VkRect2D) :
  words_fit_uint32 ->
  gen_supported (dev_gpu c) ->
  0 <= count <= INTEL_MAX_VIEWPORTS ->
  cmd_allocated (bind_state_viewport c) ->
  Z.of_nat (length viewports) = count ->
  Z.of_nat (length scissors) = count ->
  let st := planned (bind_state_viewport c) (dev_gpu c) count in
  let il := INTEL_GEN_7 <=? intel_gpu_gen (dev_gpu c) in
  exists p1 b2 sc',
    viewport_loop (dev_gpu c) (stride_sf il) (stride_clip il) viewports
      (Z.to_nat count) 0 (start_cursor st) = Ok p1 /\
    scissor_loop scissors (Z.to_nat count) 0 (buf p1)
      (cmd_scissor_rect_pos st) = Ok (b2, sc') /\
    set_viewport_state c count viewports scissors =
      Ok (set_bind_state_viewport c (set_cmd st b2)) /\
    shape il 0 (cmd_clip_pos st) (cmd_cc_pos st) count /\
    cmd_cc_pos st + 2 * count = cmd_scissor_rect_pos st /\
    cmd_scissor_rect_pos st + 2 * count = cmd_len st /\
    cmd_len st <= Z.of_nat (length (cmd (bind_state_viewport c))) /\
    cmd st = cmd (bind_state_viewport c) /\
    length (buf p1) = length (cmd (bind_state_viewport c)).
Proof.
  intros Hfit Hgen Hcount Halloc Hvps Hscs st il.
  unfold cmd_allocated, CMD_WORDS in Halloc.
  assert (Hst : cmd st = cmd (bind_state_viewport c) /\
    shape il 0 (cmd_clip_pos st) (cmd_cc_pos st) count /\
    cmd_cc_pos st + 2 * count = cmd_scissor_rect_pos st /\
    cmd_scissor_rect_pos st + 2 * count = cmd_len st /\
    cmd_len st <= 20 * INTEL_MAX_VIEWPORTS).
  { unfold st, il, planned, shape.
    destruct (INTEL_GEN_7 <=? intel_gpu_gen (dev_gpu c));
      cbn [cmd cmd_len cmd_clip_pos cmd_cc_pos cmd_scissor_rect_pos];
      repeat split; lia. }
  destruct Hst as (Hcmd & Hshape & Hsc & Hlen & Hcap).
  destruct (viewport_loop_shape il (dev_gpu c) viewports (Z.to_nat count)
              0 (start_cursor st))
    as (p1 & Hloop & Hlen1 & _);
    try (unfold start_cursor;
         cbn [buf sf_viewport clip_viewport cc_viewport];
         rewrite ?Z2Nat.id by lia; rewrite ?Hcmd; lia).
  { unfold start_cursor. cbn [buf sf_viewport clip_viewport cc_viewport].
    rewrite Z2Nat.id by lia. exact Hshape. }
  unfold start_cursor in Hlen1. cbn [buf] in Hlen1. rewrite Hcmd in Hlen1.
  destruct (scissor_loop_ok scissors (Z.to_nat count) 0 (buf p1)
              (cmd_scissor_rect_pos st))
    as (b2 & sc' & Hloop2 & _);
    try (rewrite ?Z2Nat.id by lia; destruct il; cbn [shape] in Hshape; lia).
  exists p1, b2, sc'.
  split; [exact Hloop|]. split; [exact Hloop2|]. split.
  - unfold set_viewport_state.
    rewrite (INTEL_GPU_ASSERT_ok _ Hgen). cbn [bind].
    rewrite viewport_state_cmd_planned by assumption. cbn [bind].
    fold st. fold il. fold (stride_sf il). fold (stride_clip il).
    fold (start_cursor st).
    rewrite Hloop. cbn [bind]. rewrite Hloop2. cbn [bind fst].
    reflexivity.
  - repeat split; try assumption; lia.
Qed.

(** The CLIP and CC entries of all viewports after the call. *)
Lemma set_viewport_state_clip_cc (c : intel_cmd) (count : Z)
    (viewports : list VkViewport) (scissors : list VkRect2D) :
  words_fit_uint32 ->
  gen_supported (dev_gpu c) ->
  0 <= count <= INTEL_MAX_VIEWPORTS ->
  cmd_allocated (bind_state_viewport c) ->
  Z.of_nat (length viewports) = count ->
  Z.of_nat (length scissors) = count ->
  exists c',
    set_viewport_state c count viewports scissors = Ok c' /\
    forall (i : nat) vp, viewports !! i = Some vp ->
      read_words (cmd (bind_state_viewport c'))
        (cmd_clip_pos (bind_state_viewport c') +
         clip_stride_of (dev_gpu c) * Z.of_nat i) 4 =
        clip_entry (dev_gpu c) vp /\
      read_words (cmd (bind_state_viewport c'))
        (cmd_cc_pos (bind_state_viewport c') + 2 * Z.of_nat i) 2 =
        cc_entry vp.
Proof.
  intros Hfit Hgen Hcount Halloc Hvps Hscs.
  destruct (set_viewport_state_run c count viewports scissors
              Hfit Hgen Hcount Halloc Hvps Hscs)
    as (p1 & b2 & sc' & Hloop & Hloop2 & Hrun & Hshape & Hsc & Hlen &
        Hcap & Hcmd & Hlen1).
  set (st := planned (bind_state_viewport c) (dev_gpu c) count) in *.
  set (il := INTEL_GEN_7 <=? intel_gpu_gen (dev_gpu c)) in *.
  destruct (scissor_loop_ok scissors (Z.to_nat count) 0 (buf p1)
              (cmd_scissor_rect_pos st))
    as (b2' & sc'' & Hloop2' & _ & Hpres2 & _);
    try (rewrite ?Z2Nat.id by lia; destruct il; cbn [shape] in Hshape; lia).
  rewrite Hloop2 in Hloop2'. injection Hloop2' as <- <-.
  rewrite Z2Nat.id in Hpres2 by lia.
  eexists. split; [exact Hrun|].
  intros i vp Hvp.
  assert (Hi : (i < Z.to_nat count)%nat)
    by (apply lookup_lt_Some in Hvp; lia).
  destruct (viewport_loop_entries il (dev_gpu c) viewports
              (Z.to_nat count) 0 (start_cursor st) p1) with (j := i) (vp := vp)
    as [Hclip Hcc];
    try (unfold start_cursor;
         cbn [buf sf_viewport clip_viewport cc_viewport];
         rewrite ?Z2Nat.id by lia; rewrite ?Hcmd;
         first [assumption | lia]).
  { exact Hloop. }
  unfold start_cursor in Hclip, Hcc.
  cbn [clip_viewport cc_viewport] in Hclip, Hcc.
  cbn [bind_state_viewport set_bind_state_viewport cmd set_cmd
       cmd_clip_pos cmd_cc_pos].
  fold st. change (clip_stride_of (dev_gpu c)) with (stride_clip il).
  rewrite <- Hclip, <- Hcc.
  assert (Hstride : 0 <= stride_clip il <= 16) by (destruct il; cbn; lia).
  split; apply read_words_ext; intros k Hk.
  - replace (Z.to_nat (cmd_clip_pos st + stride_clip il * Z.of_nat i) + k)%nat
      with (Z.to_nat (cmd_clip_pos st + stride_clip il * Z.of_nat i
                      + Z.of_nat k))
      by (destruct il; cbn [shape stride_clip] in *; lia).
    apply Hpres2; destruct il; cbn [shape stride_clip] in *; lia.
  - replace (Z.to_nat (cmd_cc_pos st + 2 * Z.of_nat i) + k)%nat
      with (Z.to_nat (cmd_cc_pos st + 2 * Z.of_nat i + Z.of_nat k))
      by (destruct il; cbn [shape] in *; lia).
    apply Hpres2; destruct il; cbn [shape] in *; lia.
Qed.

(** After the call, the CLIP entry of a viewport whose center the code
    can convert and clamp within [int] holds the four guardband bounds
    relative to the viewport, [(gb - translate) / |scale|], as float bit
    patterns, and its CC entry the bit patterns of [minDepth] and
    [maxDepth], NaNs included; the scissor loop and the later viewports
    leave them alone. *)
Theorem set_viewport_state_clip_cc_entries (c : intel_cmd) (count : Z)
    (viewports : list VkViewport) (scissors : list VkRect2D)
    (i : nat) (vp : VkViewport) :
  words_fit_uint32 ->
  gen_supported (dev_gpu c) ->
  0 <= count <= INTEL_MAX_VIEWPORTS ->
  cmd_allocated (bind_state_viewport c) ->
  Z.of_nat (length viewports) = count ->
  Z.of_nat (length scissors) = count ->
  viewports !! i = Some vp ->
  center_defined vp ->
  exists c',
    set_viewport_state c count viewports scissors = Ok c' /\
    read_words (cmd (bind_state_viewport c'))
      (cmd_clip_pos (bind_state_viewport c') +
       clip_stride_of (dev_gpu c) * Z.of_nat i) 4 =
      clip_entry (dev_gpu c) vp /\
    read_words (cmd (bind_state_viewport c'))
      (cmd_cc_pos (bind_state_viewport c') + 2 * Z.of_nat i) 2 =
      [u_fui (minDepth vp); u_fui (maxDepth vp)].
Proof.
  intros Hfit Hgen Hcount Halloc Hvps Hscs Hvp _.
  destruct (set_viewport_state_clip_cc c count viewports scissors
              Hfit Hgen Hcount Halloc Hvps Hscs) as (c' & Hrun & Hent).
  exists c'. split; [exact Hrun|].
  destruct (Hent i vp Hvp) as [Hclip Hcc].
  split; [exact Hclip | exact Hcc].
Qed.

(** After the call, the entry of a scissor of nonzero width and height
    whose [max_x] is below [0x8000] holds the two words of the packing
    formula, [(y & 0xFFFF) << 16 | (x & 0xFFFF)] and
    [max_y << 16 | max_x]. *)
Theorem set_viewport_state_scissor_entry (c : intel_cmd) (count : Z)
    (viewports : list VkViewport) (scissors : list VkRect2D)
    (i : nat) (s : VkRect2D) :
  words_fit_uint32 ->
  gen_supported (dev_gpu c) ->
  0 <= count <= INTEL_MAX_VIEWPORTS ->
  cmd_allocated (bind_state_viewport c) ->
  Z.of_nat (length viewports) = count ->
  Z.of_nat (length scissors) = count ->
  scissors !! i = Some s ->
  ext_width (extent s) <> 0 ->
  ext_height (extent s) <> 0 ->
  spec_scissor_max_x s < 2 ^ 15 ->
  exists c',
    set_viewport_state c count viewports scissors = Ok c' /\
    read_words (cmd (bind_state_viewport c'))
      (cmd_scissor_rect_pos (bind_state_viewport c') + 2 * Z.of_nat i) 2 =
    [Z.lor (Z.shiftl (Z.land (y (offset s)) 0xFFFF) 16)
           (Z.land (x (offset s)) 0xFFFF);
     Z.lor (Z.shiftl (spec_scissor_max_y s) 16) (spec_scissor_max_x s)].
Proof.
  intros Hfit Hgen Hcount Halloc Hvps Hscs Hs Hw Hh Hmax.
  destruct (set_viewport_state_ok c count viewports scissors
              Hfit Hgen Hcount Halloc Hvps Hscs)
    as (b' & Hrun & _ & _ & Hsc & _).
  eexists. split; [exact Hrun|].
  cbn [bind_state_viewport set_bind_state_viewport cmd set_cmd
       cmd_scissor_rect_pos].
  rewrite (Hsc i s Hs). unfold scissor_entry.
  destruct (scissor_words_spec s Hw Hh) as [-> H1].
  rewrite (H1 Hmax). reflexivity.
Qed.

(** The call writes the entries of the four sub-blocks and nothing else. *)
Lemma set_viewport_state_preserves (c : intel_cmd) (count : Z)
    (viewports : list VkViewport) (scissors : list VkRect2D) :
  words_fit_uint32 ->
  gen_supported (dev_gpu c) ->
  0 <= count <= INTEL_MAX_VIEWPORTS ->
  cmd_allocated (bind_state_viewport c) ->
  Z.of_nat (length viewports) = count ->
  Z.of_nat (length scissors) = count ->
  exists c',
    set_viewport_state c count viewports scissors = Ok c' /\
    dev_gpu c' = dev_gpu c /\
    bind_state_stencil c' = bind_state_stencil c /\
    bind_state_viewport c' =
      set_cmd (planned (bind_state_viewport c) (dev_gpu c) count)
        (cmd (bind_state_viewport c')) /\
    length (cmd (bind_state_viewport c')) =
      length (cmd (bind_state_viewport c)) /\
    (forall idx, 0 <= idx ->
       (forall (m : nat) A,
          sub_blocks (dev_gpu c) (bind_state_viewport c') !! m = Some A ->
          ~ block_words A count idx) ->
       cmd (bind_state_viewport c') !! Z.to_nat idx =
       cmd (bind_state_viewport c) !! Z.to_nat idx).
Proof.
  intros Hfit Hgen Hcount Halloc Hvps Hscs.
  destruct (set_viewport_state_run c count viewports scissors
              Hfit Hgen Hcount Halloc Hvps Hscs)
    as (p1 & b2 & sc' & Hloop & Hloop2 & Hrun & Hshape & Hsc & Hlen &
        Hcap & Hcmd & Hlen1).
  set (st := planned (bind_state_viewport c) (dev_gpu c) count) in *.
  set (il := INTEL_GEN_7 <=? intel_gpu_gen (dev_gpu c)) in *.
  destruct (viewport_loop_shape il (dev_gpu c) viewports (Z.to_nat count)
              0 (start_cursor st))
    as (p1' & Hloop' & _ & Hpres1 & _);
    try (unfold start_cursor;
         cbn [buf sf_viewport clip_viewport cc_viewport];
         rewrite ?Z2Nat.id by lia; rewrite ?Hcmd;
         first [assumption | lia]).
  rewrite Hloop in Hloop'. injection Hloop' as <-.
  unfold start_cursor in Hpres1.
  cbn [buf sf_viewport clip_viewport cc_viewport] in Hpres1.
  rewrite Hcmd, Z2Nat.id in Hpres1 by lia.
  destruct (scissor_loop_ok scissors (Z.to_nat count) 0 (buf p1)
              (cmd_scissor_rect_pos st))
    as (b2' & sc'' & Hloop2' & Hlen2 & Hpres2 & _);
    try (rewrite ?Z2Nat.id by lia; destruct il; cbn [shape] in Hshape; lia).
  rewrite Hloop2 in Hloop2'. injection Hloop2' as <- <-.
  rewrite Z2Nat.id in Hpres2 by lia.
  eexists. split; [exact Hrun|].
  cbn [bind_state_viewport set_bind_state_viewport cmd set_cmd dev_gpu
       bind_state_stencil].
  split; [reflexivity|]. split; [reflexivity|]. split; [reflexivity|].
  split; [congruence|].
  intros idx Hidx Hno.
  unfold sub_blocks in Hno.
  cbn [set_cmd cmd_clip_pos cmd_cc_pos cmd_scissor_rect_pos] in Hno.
  change (sf_stride_of (dev_gpu c)) with (stride_sf il) in Hno.
  change (clip_stride_of (dev_gpu c)) with (stride_clip il) in Hno.
  rewrite Hpres2.
  - apply Hpres1; [exact Hidx|].
    intros j Hj [H | [H | H]].
    + apply (Hno 0%nat _ eq_refl). exists j, (idx - stride_sf il * j).
      destruct il; cbn [stride_sf] in *; lia.
    + apply (Hno 1%nat _ eq_refl).
      exists j, (idx - cmd_clip_pos st - stride_clip il * j).
      destruct il; cbn [stride_clip] in *; lia.
    + apply (Hno 2%nat _ eq_refl).
      exists j, (idx - cmd_cc_pos st - 2 * j). lia.
  - exact Hidx.
  - destruct (Z_lt_ge_dec idx (cmd_scissor_rect_pos st)) as [Hlt | Hge];
      [left; exact Hlt|].
    destruct (Z_lt_ge_dec idx (cmd_scissor_rect_pos st + 2 * count))
      as [Hlt2 | Hge2]; [|right; lia].
    exfalso. apply (Hno 3%nat _ eq_refl).
    exists ((idx - cmd_scissor_rect_pos st) / 2),
           ((idx - cmd_scissor_rect_pos st) mod 2).
    Z.div_mod_to_equations. lia.
Qed.

(** The call leaves the GPU and the stencil state of the command alone,
    keeps the length of the buffer, and changes no word outside the
    entries of the four sub-blocks; in particular no word at or beyond the
    total length is written. *)
Theorem set_viewport_state_writes_entries_only (c : intel_cmd) (count : Z)
    (viewports : list VkViewport) (scissors : list VkRect2D) :
  words_fit_uint32 ->
  gen_supported (dev_gpu c) ->
  0 <= count <= INTEL_MAX_VIEWPORTS ->
  cmd_allocated (bind_state_viewport c) ->
  Z.of_nat (length viewports) = count ->
  Z.of_nat (length scissors) = count ->
  exists c',
    set_viewport_state c count viewports scissors = Ok c' /\
    dev_gpu c' = dev_gpu c /\
    bind_state_stencil c' = bind_state_stencil c /\
    length (cmd (bind_state_viewport c')) =
      length (cmd (bind_state_viewport c)) /\
    (forall idx, 0 <= idx ->
       (forall (m : nat) A,
          sub_blocks (dev_gpu c) (bind_state_viewport c') !! m = Some A ->
          ~ block_words A count idx) ->
       cmd (bind_state_viewport c') !! Z.to_nat idx =
       cmd (bind_state_viewport c) !! Z.to_nat idx) /\
    (forall idx, cmd_len (bind_state_viewport c') <= idx ->
       cmd (bind_state_viewport c') !! Z.to_nat idx =
       cmd (bind_state_viewport c) !! Z.to_nat idx).
Proof.
  intros Hfit Hgen Hcount Halloc Hvps Hscs.
  destruct (set_viewport_state_preserves c count viewports scissors
              Hfit Hgen Hcount Halloc Hvps Hscs)
    as (c' & Hrun & Hg & Hs & Hst & Hlen & Hpres).
  exists c'. repeat (split; [assumption|]).
  intros idx Hidx. apply Hpres.
  - rewrite Hst in Hidx. unfold planned in Hidx.
    destruct (INTEL_GEN_7 <=? intel_gpu_gen (dev_gpu c));
      cbn [set_cmd cmd_len] in Hidx; lia.
  - intros m A HA Hin. rewrite Hst in HA, Hidx.
    unfold sub_blocks, sf_stride_of, clip_stride_of, planned in HA, Hidx.
    destruct (INTEL_GEN_7 <=? intel_gpu_gen (dev_gpu c));
      cbn [set_cmd cmd_len cmd_clip_pos cmd_cc_pos cmd_scissor_rect_pos]
        in HA, Hidx;
      destruct m as [|[|[|[|m]]]]; cbn [lookup list_lookup] in HA;
      try discriminate HA; injection HA as <-;
      unfold block_words, entry_words in Hin;
      destruct Hin as (i1 & k1 & ? & ? & ?); lia.
Qed.

(** On generations 7 and above the last four words of the 16-word slot of
    every viewport (words 12 to 15, after the SF and CLIP entries) are not
    written: they keep the value they had before the call. *)
Theorem set_viewport_state_slot_padding (c : intel_cmd) (count : Z)
    (viewports : list VkViewport) (scissors : list VkRect2D) (i k : Z) :
  words_fit_uint32 ->
  gen_supported (dev_gpu c) ->
  0 <= count <= INTEL_MAX_VIEWPORTS ->
  cmd_allocated (bind_state_viewport c) ->
  Z.of_nat (length viewports) = count ->
  Z.of_nat (length scissors) = count ->
  INTEL_GEN_7 <= intel_gpu_gen (dev_gpu c) ->
  0 <= i < count ->
  12 <= k < 16 ->
  exists c',
    set_viewport_state c count viewports scissors = Ok c' /\
    cmd (bind_state_viewport c') !! Z.to_nat (16 * i + k) =
    cmd (bind_state_viewport c) !! Z.to_nat (16 * i + k).
Proof.
  intros Hfit Hgen Hcount Halloc Hvps Hscs H7 Hi Hk.
  destruct (set_viewport_state_preserves c count viewports scissors
              Hfit Hgen Hcount Halloc Hvps Hscs)
    as (c' & Hrun & _ & _ & Hst & _ & Hpres).
  exists c'. split; [exact Hrun|].
  apply Hpres; [lia|].
  intros m A HA Hin. rewrite Hst in HA.
  unfold sub_blocks, sf_stride_of, clip_stride_of, planned in HA.
  apply Z.leb_le in H7. rewrite H7 in HA.
  cbn [set_cmd cmd_len cmd_clip_pos cmd_cc_pos cmd_scissor_rect_pos] in HA.
  destruct m as [|[|[|[|m]]]]; cbn [lookup list_lookup] in HA;
    try discriminate HA; injection HA as <-;
    unfold block_words, entry_words in Hin;
    destruct Hin as (i1 & k1 & ? & ? & ?); lia.
Qed.


(** ** Recording the same state twice *)

(** Whether a word belongs to an entry of a sub-block can be decided from
    its offset in the block. *)
Lemma entry_words_dec (off stride width count idx : Z) :
  0 < width <= stride ->
  entry_words off stride width count idx \/
  ~ entry_words off stride width count idx.
Proof.
  intros Hw. unfold entry_words.
  set (d := idx - off).
  destruct (Z_lt_ge_dec d 0) as [Hd | Hd].
  { right. intros (i & k & Hi & Hk & E). nia. }
  destruct (Z_lt_ge_dec (d / stride) count) as [Hq | Hq];
    [destruct (Z_lt_ge_dec (d mod stride) width) as [Hr | Hr]|].
  - left. exists (d / stride), (d mod stride).
    pose proof (Z.div_mod d stride ltac:(lia)).
    pose proof (Z.mod_pos_bound d stride ltac:(lia)).
    pose proof (Z.div_pos d stride ltac:(lia) ltac:(lia)).
    repeat split; lia.
  - right. intros (i & k & Hi & Hk & E).
    assert (k = d mod stride)
      by (apply (Z.mod_unique d stride i k); lia).
    lia.
  - right. intros (i & k & Hi & Hk & E).
    assert (i = d / stride)
      by (apply (Z.div_unique d stride i k); lia).
    lia.
Qed.

(** Every word lies in an entry of one of the four sub-blocks or in none. *)
Lemma sub_blocks_cover (gpu : intel_gpu) (st : intel_dynamic_viewport)
    (count idx : Z) :
  entry_words 0 (sf_stride_of gpu) 8 count idx \/
  entry_words (cmd_clip_pos st) (clip_stride_of gpu) 4 count idx \/
  entry_words (cmd_cc_pos st) 2 2 count idx \/
  entry_words (cmd_scissor_rect_pos st) 2 2 count idx \/
  (forall (m : nat) A,
     sub_blocks gpu st !! m = Some A -> ~ block_words A count idx).
Proof.
  assert (H8 : 8 <= sf_stride_of gpu)
    by (unfold sf_stride_of; destruct (_ <=? _); lia).
  assert (H4 : 4 <= clip_stride_of gpu)
    by (unfold clip_stride_of; destruct (_ <=? _); lia).
  destruct (entry_words_dec 0 (sf_stride_of gpu) 8 count idx)
    as [H1 | H1]; [lia | auto |].
  destruct (entry_words_dec (cmd_clip_pos st) (clip_stride_of gpu) 4
              count idx) as [H2 | H2]; [lia | auto |].
  destruct (entry_words_dec (cmd_cc_pos st) 2 2 count idx)
    as [H3 | H3]; [lia | auto |].
  destruct (entry_words_dec (cmd_scissor_rect_pos st) 2 2 count idx)
    as [H5 | H5]; [lia | auto 6 |].
  do 4 right. intros m A HA.
  destruct m as [|[|[|[|m]]]]; cbn [sub_blocks lookup list_lookup] in HA;
    try discriminate HA; injection HA as <-; cbn [block_words]; assumption.
Qed.

(** Two buffers whose entries of a sub-block are equal agree on every word
    of the sub-block's entries. *)
Lemma entry_words_agree (b b' : list Z) (off stride : Z) (width : nat)
    (count idx : Z) :
  0 <= off -> 0 <= stride ->
  (forall i : nat, Z.of_nat i < count ->
     read_words b (off + stride * Z.of_nat i) width =
     read_words b' (off + stride * Z.of_nat i) width) ->
  entry_words off stride (Z.of_nat width) count idx ->
  b !! Z.to_nat idx = b' !! Z.to_nat idx.
Proof.
  intros Hoff Hs H (i & k & Hi & Hk & ->).
  specialize (H (Z.to_nat i) ltac:(lia)).
  rewrite Z2Nat.id in H by lia.
  assert (E : read_words b (off + stride * i) width !! Z.to_nat k =
              read_words b' (off + stride * i) width !! Z.to_nat k)
    by (rewrite H; reflexivity).
  rewrite !read_words_lookup in E by lia.
  replace (Z.to_nat (off + stride * i + k))
    with (Z.to_nat (off + stride * i) + Z.to_nat k)%nat by nia.
  exact E.
Qed.

(** The planned layout does not depend on the state holder planned over. *)
Lemma set_cmd_planned (s1 s2 : intel_dynamic_viewport) (gpu : intel_gpu)
    (count : Z) (b : list Z) :
  set_cmd (planned s1 gpu count) b = set_cmd (planned s2 gpu count) b.
Proof.
  unfold planned, set_cmd.
  destruct (INTEL_GEN_7 <=? intel_gpu_gen gpu); reflexivity.
Qed.

(** All that the call leaves: the layout, the entries of the four
    sub-blocks and, everywhere else, the buffer as it was. *)
Lemma set_viewport_state_contents (c : intel_cmd) (count : Z)
    (viewports : list VkViewport) (scissors : list VkRect2D) :
  words_fit_uint32 ->
  gen_supported (dev_gpu c) ->
  0 <= count <= INTEL_MAX_VIEWPORTS ->
  cmd_allocated (bind_state_viewport c) ->
  Z.of_nat (length viewports) = count ->
  Z.of_nat (length scissors) = count ->
  exists c',
    set_viewport_state c count viewports scissors = Ok c' /\
    dev_gpu c' = dev_gpu c /\
    bind_state_stencil c' = bind_state_stencil c /\
    bind_state_viewport c' =
      set_cmd (planned (bind_state_viewport c) (dev_gpu c) count)
        (cmd (bind_state_viewport c')) /\
    length (cmd (bind_state_viewport c')) =
      length (cmd (bind_state_viewport c)) /\
    (forall idx, 0 <= idx ->
       (forall (m : nat) A,
          sub_blocks (dev_gpu c) (bind_state_viewport c') !! m = Some A ->
          ~ block_words A count idx) ->
       cmd (bind_state_viewport c') !! Z.to_nat idx =
       cmd (bind_state_viewport c) !! Z.to_nat idx) /\
    (forall (i : nat) vp, viewports !! i = Some vp ->
       read_words (cmd (bind_state_viewport c'))
         (sf_stride_of (dev_gpu c) * Z.of_nat i) 8 = spec_sf_entry vp /\
       read_words (cmd (bind_state_viewport c'))
         (cmd_clip_pos (bind_state_viewport c') +
          clip_stride_of (dev_gpu c) * Z.of_nat i) 4 =
         clip_entry (dev_gpu c) vp /\
       read_words (cmd (bind_state_viewport c'))
         (cmd_cc_pos (bind_state_viewport c') + 2 * Z.of_nat i) 2 =
         cc_entry vp) /\
    (forall (i : nat) s, scissors !! i = Some s ->
       read_words (cmd (bind_state_viewport c'))
         (cmd_scissor_rect_pos (bind_state_viewport c') + 2 * Z.of_nat i) 2 =
       scissor_entry s).
Proof.
  intros Hfit Hgen Hcount Halloc Hvps Hscs.
  destruct (set_viewport_state_preserves c count viewports scissors
              Hfit Hgen Hcount Halloc Hvps Hscs)
    as (c' & Hrun & Hgpu & Hsten & Hbsv & Hlen & Hpres).
  destruct (set_viewport_state_ok c count viewports scissors
              Hfit Hgen Hcount Halloc Hvps Hscs)
    as (b' & Hrun2 & _ & Hsf & Hsc & _).
  destruct (set_viewport_state_clip_cc c count viewports scissors
              Hfit Hgen Hcount Halloc Hvps Hscs)
    as (c2 & Hrun3 & Hent).
  rewrite Hrun in Hrun2, Hrun3.
  injection Hrun3 as <-. injection Hrun2 as Hc'.
  exists c'. repeat (split; [assumption|]).
  split.
  - intros i vp Hvp. destruct (Hent i vp Hvp) as [Hclip Hcc].
    repeat split; try assumption.
    rewrite Hc'. cbn [bind_state_viewport set_bind_state_viewport cmd set_cmd].
    apply Hsf, Hvp.
  - intros i s Hs.
    rewrite Hc'. cbn [bind_state_viewport set_bind_state_viewport cmd set_cmd
                      cmd_scissor_rect_pos].
    apply Hsc, Hs.
Qed.

(** Recording the same viewports and scissors again changes nothing: the
    second call returns the state the first one left. *)
Theorem set_viewport_state_idempotent (c : intel_cmd) (count : Z)
    (viewports : list VkViewport) (scissors : list VkRect2D) :
  words_fit_uint32 ->
  gen_supported (dev_gpu c) ->
  0 <= count <= INTEL_MAX_VIEWPORTS ->
  cmd_allocated (bind_state_viewport c) ->
  Z.of_nat (length viewports) = count ->
  Z.of_nat (length scissors) = count ->
  exists c',
    set_viewport_state c count viewports scissors = Ok c' /\
    set_viewport_state c' count viewports scissors = Ok c'.
Proof.
  intros Hfit Hgen Hcount Halloc Hvps Hscs.
  destruct (set_viewport_state_contents c count viewports scissors
              Hfit Hgen Hcount Halloc Hvps Hscs)
    as (c' & Hrun & Hgpu & Hsten & Hbsv & Hlen & _ & Hvp & Hsc).
  assert (Hgen' : gen_supported (dev_gpu c')) by (rewrite Hgpu; exact Hgen).
  assert (Halloc' : cmd_allocated (bind_state_viewport c'))
    by (unfold cmd_allocated in *; rewrite Hlen; exact Halloc).
  destruct (set_viewport_state_contents c' count viewports scissors
              Hfit Hgen' Hcount Halloc' Hvps Hscs)
    as (c'' & Hrun' & Hgpu' & Hsten' & Hbsv' & Hlen' & Hpres' & Hvp' & Hsc').
  exists c'. split; [exact Hrun|]. rewrite Hrun'. f_equal.
  rewrite Hgpu in Hbsv', Hvp'.
  set (gpu := dev_gpu c) in *.
  set (v' := bind_state_viewport c') in *.
  set (v'' := bind_state_viewport c'') in *.
  assert (Hpos : cmd_clip_pos v'' = cmd_clip_pos v' /\
                 cmd_cc_pos v'' = cmd_cc_pos v' /\
                 cmd_scissor_rect_pos v'' = cmd_scissor_rect_pos v' /\
                 0 <= cmd_clip_pos v' /\ 0 <= cmd_cc_pos v' /\
                 0 <= cmd_scissor_rect_pos v').
  { rewrite Hbsv', Hbsv. unfold planned, set_cmd.
    destruct (INTEL_GEN_7 <=? intel_gpu_gen gpu);
      cbn [cmd_clip_pos cmd_cc_pos cmd_scissor_rect_pos];
      repeat split; lia. }
  destruct Hpos as (Eclip & Ecc & Esc & Pclip & Pcc & Psc).
  rewrite Eclip, Ecc in Hvp'. rewrite Esc in Hsc'.
  assert (Hsfs : 0 <= sf_stride_of gpu)
    by (unfold sf_stride_of; destruct (_ <=? _); lia).
  assert (Hcs : 0 <= clip_stride_of gpu)
    by (unfold clip_stride_of; destruct (_ <=? _); lia).
  assert (Hcmd : cmd v'' = cmd v').
  { apply list_eq. intros n.
    rewrite <- (Nat2Z.id n).
    destruct (sub_blocks_cover (dev_gpu c') v'' count (Z.of_nat n))
      as [H | [H | [H | [H | H]]]].
    - rewrite Hgpu in H. fold gpu in H.
      apply (entry_words_agree _ _ 0 (sf_stride_of gpu) 8 count);
        [lia | exact Hsfs | | exact H].
      intros i Hi.
      destruct (lookup_lt_is_Some_2 viewports i) as [vp Hvpi]; [lia|].
      destruct (Hvp i vp Hvpi) as (E & _).
      destruct (Hvp' i vp Hvpi) as (E' & _).
      rewrite Z.add_0_l, E, E'. reflexivity.
    - rewrite Hgpu, Eclip in H. fold gpu in H.
      apply (entry_words_agree _ _ (cmd_clip_pos v') (clip_stride_of gpu) 4
               count); [exact Pclip | exact Hcs | | exact H].
      intros i Hi.
      destruct (lookup_lt_is_Some_2 viewports i) as [vp Hvpi]; [lia|].
      destruct (Hvp i vp Hvpi) as (_ & E & _).
      destruct (Hvp' i vp Hvpi) as (_ & E' & _).
      rewrite E, E'. reflexivity.
    - rewrite Ecc in H.
      apply (entry_words_agree _ _ (cmd_cc_pos v') 2 2 count);
        [exact Pcc | lia | | exact H].
      intros i Hi.
      destruct (lookup_lt_is_Some_2 viewports i) as [vp Hvpi]; [lia|].
      destruct (Hvp i vp Hvpi) as (_ & _ & E).
      destruct (Hvp' i vp Hvpi) as (_ & _ & E').
      rewrite E, E'. reflexivity.
    - rewrite Esc in H.
      apply (entry_words_agree _ _ (cmd_scissor_rect_pos v') 2 2 count);
        [exact Psc | lia | | exact H].
      intros i Hi.
      destruct (lookup_lt_is_Some_2 scissors i) as [s Hsi]; [lia|].
      rewrite (Hsc i s Hsi), (Hsc' i s Hsi). reflexivity.
    - apply Hpres'; [lia | exact H]. }
  assert (Ev : v'' = v').
  { rewrite Hbsv', Hcmd. etransitivity; [|symmetry; exact Hbsv].
    apply set_cmd_planned. }
  subst v' v'' gpu.
  destruct c'' as [g2 w2 s2], c' as [g1 w1 s1].
  cbn [dev_gpu bind_state_viewport bind_state_stencil] in *.
  congruence.
Qed.
End Genhw.

(** ** The theorems on the sample inputs

    The header constants are instantiated with [INTEL_GEN(6)] as 600,
    [INTEL_GEN(7)] as 700, [INTEL_GEN(7.5)] as 750 and sixteen viewports at
    most; the NaN rule is that of the x86 SSE instructions. *)

Ltac evaluate :=
  vm_compute; repeat split; first [reflexivity | discriminate].

(** The examples of the specification. *)
Example guardband_example :
  viewport_get_guardband 700 sample_gpu7 400 300 = (-3696, 4496, -3796, 4396).
Proof. vm_compute. reflexivity. Qed.

Example scissor_example :
  scissor_words sample_scissor =
  (Z.lor (Z.shiftl 20 16) 10, Z.lor (Z.shiftl 69 16) 109).
Proof. vm_compute. reflexivity. Qed.

(** NaNs under the x86 rule.  On [flat_viewport], [inf - inf] in the SF
    entry and [0 / 0] in the CLIP entry are the default NaN [0xffc00000];
    on [nan_viewport], the NaN [minDepth] is stored with its own bits in
    the SF and CC entries, and [maxDepth - minDepth] is that NaN with the
    quiet bit set. *)
Example nan_words_example :
  (exists c',
     set_viewport_state 600 700 750 16 sse_nan sample_cmd 1
       [flat_viewport] [sample_scissor] = Ok c' /\
     read_words (cmd (bind_state_viewport c')) 0 8 =
       [0; 0x43960000; 0xFFC00000; 0xC7000000; 0x43960000; 0x7F800000;
        0; 0] /\
     read_words (cmd (bind_state_viewport c')) 8 4 =
       [0xFFC00000; 0x7F800000; 0xC15A740E; 0x415A740E]) /\
  (exists c',
     set_viewport_state 600 700 750 16 sse_nan sample_cmd 1
       [nan_viewport] [sample_scissor] = Ok c' /\
     read_words (cmd (bind_state_viewport c')) 0 8 =
       [0x43C80000; 0x43960000; 0x7FE00001; 0x43C80000; 0x43960000;
        0x7FA00001; 0; 0] /\
     read_words (cmd (bind_state_viewport c')) 16 2 =
       [0x7FA00001; 0x3F800000]).
Proof.
  split; eexists; (split; [vm_compute; reflexivity|]);
    split; vm_compute; reflexivity.
Qed.

Lemma viewport_state_cmd_layout_witness :
  words_fit_uint32 16 /\
  gen_supported 600 750 sample_gpu7 /\
  0 <= 2 <= 16 /\
  exists state',
    viewport_state_cmd 600 700 750 16 sample_state sample_gpu7 2 = Ok state' /\
    cmd_len state' = 40 /\ cmd_clip_pos state' = 8 /\
    cmd_cc_pos state' = 32 /\ cmd_scissor_rect_pos state' = 36.
Proof.
  assert (H1 : words_fit_uint32 16) by evaluate.
  assert (H2 : gen_supported 600 750 sample_gpu7) by evaluate.
  assert (H3 : 0 <= 2 <= 16) by lia.
  repeat (split; [assumption|]).
  destruct (viewport_state_cmd_layout 600 700 750 16 sample_state
              sample_gpu7 2 H1 H2 H3) as (state' & Hrun & _ & H7 & _).
  exists state'. split; [exact Hrun|].
  apply H7. evaluate.
Defined.

Lemma viewport_state_cmd_within_capacity_witness :
  words_fit_uint32 16 /\
  gen_supported 600 750 sample_gpu6 /\
  0 <= 16 <= 16 /\
  exists state',
    viewport_state_cmd 600 700 750 16 sample_state sample_gpu6 16 = Ok state' /\
    sizeof_uint32 * cmd_len state' <= sizeof_cmd 16.
Proof.
  assert (H1 : words_fit_uint32 16) by evaluate.
  assert (H2 : gen_supported 600 750 sample_gpu6) by evaluate.
  assert (H3 : 0 <= 16 <= 16) by lia.
  repeat (split; [assumption|]).
  exact (viewport_state_cmd_within_capacity 600 700 750 16 sample_state
           sample_gpu6 16 H1 H2 H3).
Defined.

Lemma viewport_get_guardband_clamp_rule_witness :
  center_in_range 30000 /\
  center_in_range (-30000) /\
  viewport_get_guardband 700 sample_gpu7 30000 (-30000) =
  spec_guardband (spec_extent (700 <=? intel_gpu_gen sample_gpu7))
    30000 (-30000).
Proof.
  assert (H1 : center_in_range 30000) by evaluate.
  assert (H2 : center_in_range (-30000)) by evaluate.
  repeat (split; [assumption|]).
  exact (viewport_get_guardband_clamp_rule 700 sample_gpu7 30000 (-30000)
           H1 H2).
Defined.

Lemma set_viewport_state_sf_entry_witness :
  words_fit_uint32 16 /\
  gen_supported 600 750 (dev_gpu sample_cmd) /\
  0 <= 1 <= 16 /\
  cmd_allocated 16 (bind_state_viewport sample_cmd) /\
  [sample_viewport] !! 0%nat = Some sample_viewport /\
  exists c',
    set_viewport_state 600 700 750 16 sse_nan sample_cmd 1
      [sample_viewport] [sample_scissor] = Ok c' /\
    read_words (cmd (bind_state_viewport c')) 0 8 =
    [0x43C80000; 0x43960000; 0x3F800000; 0x43C80000; 0x43960000; 0; 0; 0].
Proof.
  assert (H1 : words_fit_uint32 16) by evaluate.
  assert (H2 : gen_supported 600 750 (dev_gpu sample_cmd)) by evaluate.
  assert (H3 : 0 <= 1 <= 16) by lia.
  assert (H4 : cmd_allocated 16 (bind_state_viewport sample_cmd))
    by evaluate.
  assert (H5 : [sample_viewport] !! 0%nat = Some sample_viewport)
    by reflexivity.
  repeat (split; [assumption|]).
  exact (set_viewport_state_sf_entry 600 700 750 16 sse_nan sample_cmd 1
           [sample_viewport] [sample_scissor] 0 sample_viewport
           H1 H2 H3 H4 eq_refl eq_refl H5).
Defined.

Lemma set_viewport_state_degenerate_scissor_witness :
  words_fit_uint32 16 /\
  gen_supported 600 750 (dev_gpu sample_cmd) /\
  0 <= 2 <= 16 /\
  cmd_allocated 16 (bind_state_viewport sample_cmd) /\
  [sample_scissor; empty_scissor] !! 1%nat = Some empty_scissor /\
  (ext_width (extent empty_scissor) = 0 \/
   ext_height (extent empty_scissor) = 0) /\
  scissor_words empty_scissor = (0x00010001, 0) /\
  exists c',
    set_viewport_state 600 700 750 16 sse_nan sample_cmd 2
      [sample_viewport; sample_viewport] [sample_scissor; empty_scissor]
      = Ok c' /\
    read_words (cmd (bind_state_viewport c'))
      (cmd_scissor_rect_pos (bind_state_viewport c') + 2 * Z.of_nat 1) 2 =
    [0x00010001; 0].
Proof.
  assert (H1 : words_fit_uint32 16) by evaluate.
  assert (H2 : gen_supported 600 750 (dev_gpu sample_cmd)) by evaluate.
  assert (H3 : 0 <= 2 <= 16) by lia.
  assert (H4 : cmd_allocated 16 (bind_state_viewport sample_cmd))
    by evaluate.
  assert (H5 : [sample_scissor; empty_scissor] !! 1%nat = Some empty_scissor)
    by reflexivity.
  assert (H6 : ext_width (extent empty_scissor) = 0 \/
               ext_height (extent empty_scissor) = 0)
    by (left; reflexivity).
  repeat (split; [assumption|]).
  exact (set_viewport_state_degenerate_scissor 600 700 750 16 sse_nan
      sample_cmd 2
           [sample_viewport; sample_viewport] [sample_scissor; empty_scissor]
           1 empty_scissor H1 H2 H3 H4 eq_refl eq_refl H5 H6).
Defined.

Lemma set_viewport_state_layout_witness :
  words_fit_uint32 16 /\
  gen_supported 600 750 (dev_gpu sample_cmd) /\
  1 <= 1 <= 16 /\
  cmd_allocated 16 (bind_state_viewport sample_cmd) /\
  exists c',
    set_viewport_state 600 700 750 16 sse_nan sample_cmd 1
      [sample_viewport] [sample_scissor] = Ok c' /\
    0 < cmd_clip_pos (bind_state_viewport c') /\
    cmd_clip_pos (bind_state_viewport c') < cmd_cc_pos (bind_state_viewport c') /\
    cmd_cc_pos (bind_state_viewport c') <
      cmd_scissor_rect_pos (bind_state_viewport c') /\
    cmd_scissor_rect_pos (bind_state_viewport c') <
      cmd_len (bind_state_viewport c').
Proof.
  assert (H1 : words_fit_uint32 16) by evaluate.
  assert (H2 : gen_supported 600 750 (dev_gpu sample_cmd)) by evaluate.
  assert (H3 : 1 <= 1 <= 16) by lia.
  assert (H4 : cmd_allocated 16 (bind_state_viewport sample_cmd))
    by evaluate.
  repeat (split; [assumption|]).
  destruct (set_viewport_state_layout 600 700 750 16 sse_nan sample_cmd 1
              [sample_viewport] [sample_scissor] H1 H2 H3 H4 eq_refl eq_refl)
    as (c' & Hrun & _ & Hoff & _).
  exists c'. split; [exact Hrun | exact Hoff].
Defined.

(** ** Where the code departs from the specification *)

(** C2, counterexample: at the center [x = INT_MIN] the subtraction
    [center_x - half_len] leaves the range of [int]; the wrapped difference
    is positive, no branch of the clamp fires, and the guardband returned is
    not the one the clamp rule gives. *)
Lemma viewport_get_guardband_int_min :
  viewport_get_guardband 700 sample_gpu7 (-2147483648) 0 =
    (2147479552, -2147479552, -4096, 4096) /\
  spec_guardband (spec_extent (700 <=? intel_gpu_gen sample_gpu7))
    (-2147483648) 0 = (-32768, -24576, -4096, 4096) /\
  viewport_get_guardband 700 sample_gpu7 (-2147483648) 0 <>
  spec_guardband (spec_extent (700 <=? intel_gpu_gen sample_gpu7))
    (-2147483648) 0.
Proof. evaluate. Qed.

(** C6, the code at a center that drives the guardband over the upper end
    of the extent: the returned maximum is the extent itself (32768 on
    generation 7, 16384 on generation 6), one above the last valid
    coordinate [extent - 1]; the width is 8192. *)
Lemma viewport_get_guardband_upper_pin :
  viewport_get_guardband 700 sample_gpu7 30000 0 =
    (24576, 32768, -4096, 4096) /\
  viewport_get_guardband 700 sample_gpu6 14000 0 =
    (8192, 16384, -4096, 4096).
Proof. evaluate. Qed.

(** C5, the code at a scissor whose [max_x] has bit 15 set: [max_x] is kept
    in an [int16_t], so it is negative when it is promoted to [int] and its
    sign bits overwrite the [max_y] half of [word1]; decoding [word1] gives
    [maxY = 0xFFFF] where the inputs give 99. *)
Lemma scissor_words_sign_extension :
  scissor_words wide_scissor = (0, 0xFFFF9C3F) /\
  spec_scissor_words wide_scissor = (0, 0x00639C3F) /\
  decode_scissor (scissor_words wide_scissor) = (0, 0, 39999, 0xFFFF) /\
  decode_scissor (spec_scissor_words wide_scissor) = (0, 0, 39999, 99).
Proof. evaluate. Qed.

(** C7, counterexample: on generation 7 with no viewport the CLIP offset is
    8 and the CC offset 0, so the offsets do not increase; with one
    viewport the CLIP sub-block, [stride * count = 16] words from offset 8
    on, shares word 8 with the SF sub-block. *)
Lemma layout_invariant_counterexample :
  (exists c',
     set_viewport_state 600 700 750 16 sse_nan sample_cmd 0 [] [] = Ok c' /\
     cmd_clip_pos (bind_state_viewport c') = 8 /\
     cmd_cc_pos (bind_state_viewport c') = 0 /\
     ~ spec_layout_invariant 700 sample_gpu7 (bind_state_viewport c')) /\
  (exists c',
     set_viewport_state 600 700 750 16 sse_nan sample_cmd 1
       [sample_viewport] [sample_scissor] = Ok c' /\
     ~ spec_layout_invariant 700 sample_gpu7 (bind_state_viewport c')).
Proof.
  split.
  - eexists. split; [vm_compute; reflexivity|].
    split; [reflexivity|]. split; [reflexivity|].
    intros [(_ & H & _) _]. vm_compute in H. apply H. reflexivity.
  - eexists. split; [vm_compute; reflexivity|].
    intros [_ H].
    apply (H 0%nat 1%nat (0, 16, 8) (8, 16, 4) 8); try reflexivity.
    + discriminate.
    + evaluate.
    + evaluate.
Qed.

(** ** The further properties on the sample inputs *)

Lemma viewport_get_guardband_interior_witness :
  - max_extent_of 700 sample_gpu7 <= 400 - 4096 /\
  400 + 4096 <= max_extent_of 700 sample_gpu7 - 1 /\
  - max_extent_of 700 sample_gpu7 <= 300 - 4096 /\
  300 + 4096 <= max_extent_of 700 sample_gpu7 - 1 /\
  viewport_get_guardband 700 sample_gpu7 400 300 =
  (400 - 4096, 400 + 4096, 300 - 4096, 300 + 4096).
Proof.
  assert (H1 : - max_extent_of 700 sample_gpu7 <= 400 - 4096) by evaluate.
  assert (H2 : 400 + 4096 <= max_extent_of 700 sample_gpu7 - 1) by evaluate.
  assert (H3 : - max_extent_of 700 sample_gpu7 <= 300 - 4096) by evaluate.
  assert (H4 : 300 + 4096 <= max_extent_of 700 sample_gpu7 - 1) by evaluate.
  repeat (split; [assumption|]).
  exact (viewport_get_guardband_interior 700 sample_gpu7 400 300
           H1 H2 H3 H4).
Defined.

Lemma viewport_get_guardband_bounds_witness :
  center_in_range 30000 /\
  center_in_range (-40000) /\
  viewport_get_guardband 700 sample_gpu7 30000 (-40000) =
    (24576, 32768, -32768, -24576) /\
  (- max_extent_of 700 sample_gpu7 <= 30000 <=
     max_extent_of 700 sample_gpu7 - 1 ->
   24576 <= 30000 <= 32768).
Proof.
  assert (H1 : center_in_range 30000) by evaluate.
  assert (H2 : center_in_range (-40000)) by evaluate.
  repeat (split; [assumption|]).
  split; [evaluate|].
  pose proof (viewport_get_guardband_bounds 700 sample_gpu7 30000 (-40000)
                H1 H2) as H.
  cbv zeta in H.
  change (viewport_get_guardband 700 sample_gpu7 30000 (-40000))
    with (24576, 32768, -32768, -24576) in H.
  cbv iota beta in H.
  destruct H as (_ & _ & _ & _ & _ & _ & Hx & _). exact Hx.
Defined.

Lemma viewport_get_guardband_pinned_witness :
  center_in_range 30000 /\
  center_in_range 0 /\
  viewport_get_guardband 700 sample_gpu7 30000 0 =
    (24576, 32768, -4096, 4096) /\
  (max_extent_of 700 sample_gpu7 - 1 < 30000 + 4096 ->
   24576 = max_extent_of 700 sample_gpu7 - 8192 /\
   32768 = max_extent_of 700 sample_gpu7).
Proof.
  assert (H1 : center_in_range 30000) by evaluate.
  assert (H2 : center_in_range 0) by evaluate.
  repeat (split; [assumption|]).
  split; [evaluate|].
  pose proof (viewport_get_guardband_pinned 700 sample_gpu7 30000 0 H1 H2)
    as H.
  cbv zeta in H.
  change (viewport_get_guardband 700 sample_gpu7 30000 0)
    with (24576, 32768, -4096, 4096) in H.
  cbv iota beta in H.
  destruct H as (_ & Hx & _). exact Hx.
Defined.

Lemma set_viewport_state_gen_abort_witness :
  ~ gen_supported 600 750 (dev_gpu unsupported_cmd) /\
  set_viewport_state 600 700 750 16 sse_nan unsupported_cmd 1
    [sample_viewport] [sample_scissor] = Err gpu_assert.
Proof.
  assert (H1 : ~ gen_supported 600 750 (dev_gpu unsupported_cmd))
    by (intros [_ H]; vm_compute in H; apply H; reflexivity).
  split; [assumption|].
  exact (set_viewport_state_gen_abort 600 700 750 16 sse_nan unsupported_cmd 1
           [sample_viewport] [sample_scissor] H1).
Defined.

Lemma set_viewport_state_count_abort_witness :
  gen_supported 600 750 (dev_gpu sample_cmd) /\
  16 < 17 /\
  set_viewport_state 600 700 750 16 sse_nan
      sample_cmd 17 [] [] = Err count_assert.
Proof.
  assert (H1 : gen_supported 600 750 (dev_gpu sample_cmd)) by evaluate.
  assert (H2 : 16 < 17) by lia.
  repeat (split; [assumption|]).
  exact (set_viewport_state_count_abort 600 700 750 16 sse_nan
      sample_cmd 17 [] []
           H1 H2).
Defined.

Lemma set_viewport_state_empty_witness :
  gen_supported 600 750 (dev_gpu stale_cmd) /\
  0 <= 16 /\
  exists c',
    set_viewport_state 600 700 750 16 sse_nan stale_cmd 0
      [sample_viewport] [sample_scissor] = Ok c' /\
    cmd (bind_state_viewport c') = replicate 320 0xAAAAAAAA /\
    viewport_count (bind_state_viewport c') = 0 /\
    cmd_len (bind_state_viewport c') = 0.
Proof.
  assert (H1 : gen_supported 600 750 (dev_gpu stale_cmd)) by evaluate.
  assert (H2 : 0 <= 16) by lia.
  repeat (split; [assumption|]).
  destruct (set_viewport_state_empty 600 700 750 16 sse_nan stale_cmd
              [sample_viewport] [sample_scissor] H1 H2)
    as (c' & Hrun & Hcmd & Hn & Hlen & _).
  exists c'. repeat split; assumption.
Defined.

Lemma scissor_words_round_trip_witness :
  ext_width (extent sample_scissor) <> 0 /\
  ext_height (extent sample_scissor) <> 0 /\
  spec_scissor_max_x sample_scissor < 2 ^ 15 /\
  scissor_words sample_scissor = spec_scissor_words sample_scissor /\
  decode_scissor (scissor_words sample_scissor) = (10, 20, 109, 69).
Proof.
  assert (H1 : ext_width (extent sample_scissor) <> 0) by discriminate.
  assert (H2 : ext_height (extent sample_scissor) <> 0) by discriminate.
  assert (H3 : spec_scissor_max_x sample_scissor < 2 ^ 15) by reflexivity.
  repeat (split; [assumption|]).
  exact (scissor_words_round_trip sample_scissor H1 H2 H3).
Defined.

Lemma scissor_word1_sign_extended_witness :
  ext_width (extent wide_scissor) <> 0 /\
  ext_height (extent wide_scissor) <> 0 /\
  2 ^ 15 <= spec_scissor_max_x wide_scissor /\
  snd (scissor_words wide_scissor) = 0xFFFF0000 + 39999 /\
  Z.land (Z.shiftr (snd (scissor_words wide_scissor)) 16) 0xFFFF = 0xFFFF.
Proof.
  assert (H1 : ext_width (extent wide_scissor) <> 0) by discriminate.
  assert (H2 : ext_height (extent wide_scissor) <> 0) by discriminate.
  assert (H3 : 2 ^ 15 <= spec_scissor_max_x wide_scissor) by discriminate.
  repeat (split; [assumption|]).
  exact (scissor_word1_sign_extended wide_scissor H1 H2 H3).
Defined.

Lemma set_viewport_state_clip_cc_entries_witness :
  words_fit_uint32 16 /\
  gen_supported 600 750 (dev_gpu sample_cmd) /\
  0 <= 1 <= 16 /\
  cmd_allocated 16 (bind_state_viewport sample_cmd) /\
  [sample_viewport] !! 0%nat = Some sample_viewport /\
  center_defined sse_nan sample_viewport /\
  exists c',
    set_viewport_state 600 700 750 16 sse_nan sample_cmd 1
      [sample_viewport] [sample_scissor] = Ok c' /\
    read_words (cmd (bind_state_viewport c'))
      (cmd_clip_pos (bind_state_viewport c') +
       clip_stride_of 700 (dev_gpu sample_cmd) * Z.of_nat 0) 4 =
      [0xC123D70A; 0x4123D70A; 0xC15A740E; 0x415A740E] /\
    read_words (cmd (bind_state_viewport c'))
      (cmd_cc_pos (bind_state_viewport c') + 2 * Z.of_nat 0) 2 =
      [0; 0x3F800000].
Proof.
  assert (H1 : words_fit_uint32 16) by evaluate.
  assert (H2 : gen_supported 600 750 (dev_gpu sample_cmd)) by evaluate.
  assert (H3 : 0 <= 1 <= 16) by lia.
  assert (H4 : cmd_allocated 16 (bind_state_viewport sample_cmd))
    by evaluate.
  assert (H5 : [sample_viewport] !! 0%nat = Some sample_viewport)
    by reflexivity.
  assert (H6 : center_defined sse_nan sample_viewport) by evaluate.
  repeat (split; [assumption|]).
  destruct (set_viewport_state_clip_cc_entries 600 700 750 16 sse_nan
              sample_cmd 1 [sample_viewport] [sample_scissor]
              0 sample_viewport H1 H2 H3 H4 eq_refl eq_refl H5 H6)
    as (c' & Hrun & Hclip & Hcc).
  exists c'. split; [exact Hrun|]. rewrite Hclip, Hcc.
  split; vm_compute; reflexivity.
Defined.

Lemma set_viewport_state_scissor_entry_witness :
  words_fit_uint32 16 /\
  gen_supported 600 750 (dev_gpu sample_cmd) /\
  0 <= 1 <= 16 /\
  cmd_allocated 16 (bind_state_viewport sample_cmd) /\
  [sample_scissor] !! 0%nat = Some sample_scissor /\
  ext_width (extent sample_scissor) <> 0 /\
  ext_height (extent sample_scissor) <> 0 /\
  spec_scissor_max_x sample_scissor < 2 ^ 15 /\
  exists c',
    set_viewport_state 600 700 750 16 sse_nan sample_cmd 1
      [sample_viewport] [sample_scissor] = Ok c' /\
    read_words (cmd (bind_state_viewport c'))
      (cmd_scissor_rect_pos (bind_state_viewport c') + 2 * Z.of_nat 0) 2 =
    [0x0014000A; 0x0045006D].
Proof.
  assert (H1 : words_fit_uint32 16) by evaluate.
  assert (H2 : gen_supported 600 750 (dev_gpu sample_cmd)) by evaluate.
  assert (H3 : 0 <= 1 <= 16) by lia.
  assert (H4 : cmd_allocated 16 (bind_state_viewport sample_cmd))
    by evaluate.
  assert (H5 : [sample_scissor] !! 0%nat = Some sample_scissor)
    by reflexivity.
  assert (H6 : ext_width (extent sample_scissor) <> 0) by discriminate.
  assert (H7 : ext_height (extent sample_scissor) <> 0) by discriminate.
  assert (H8 : spec_scissor_max_x sample_scissor < 2 ^ 15) by reflexivity.
  repeat (split; [assumption|]).
  exact (set_viewport_state_scissor_entry 600 700 750 16 sse_nan sample_cmd 1
           [sample_viewport] [sample_scissor] 0 sample_scissor
           H1 H2 H3 H4 eq_refl eq_refl H5 H6 H7 H8).
Defined.

Lemma set_viewport_state_writes_entries_only_witness :
  words_fit_uint32 16 /\
  gen_supported 600 750 (dev_gpu stale_cmd) /\
  0 <= 1 <= 16 /\
  cmd_allocated 16 (bind_state_viewport stale_cmd) /\
  exists c',
    set_viewport_state 600 700 750 16 sse_nan stale_cmd 1
      [sample_viewport] [sample_scissor] = Ok c' /\
    dev_gpu c' = sample_gpu7 /\
    bind_state_stencil c' = bind_state_stencil stale_cmd /\
    length (cmd (bind_state_viewport c')) = 320%nat /\
    (forall idx, cmd_len (bind_state_viewport c') <= idx < 320 ->
       cmd (bind_state_viewport c') !! Z.to_nat idx = Some 0xAAAAAAAA).
Proof.
  assert (H1 : words_fit_uint32 16) by evaluate.
  assert (H2 : gen_supported 600 750 (dev_gpu stale_cmd)) by evaluate.
  assert (H3 : 0 <= 1 <= 16) by lia.
  assert (H4 : cmd_allocated 16 (bind_state_viewport stale_cmd))
    by evaluate.
  repeat (split; [assumption|]).
  destruct (set_viewport_state_writes_entries_only 600 700 750 16 sse_nan
      stale_cmd 1
              [sample_viewport] [sample_scissor] H1 H2 H3 H4 eq_refl eq_refl)
    as (c' & Hrun & Hg & Hs & Hlen & _ & Hbeyond).
  exists c'. repeat (split; [assumption|]).
  intros idx [Hlo Hhi]. rewrite (Hbeyond idx Hlo).
  apply lookup_replicate_2. lia.
Defined.

Lemma set_viewport_state_slot_padding_witness :
  words_fit_uint32 16 /\
  gen_supported 600 750 (dev_gpu stale_cmd) /\
  0 <= 2 <= 16 /\
  cmd_allocated 16 (bind_state_viewport stale_cmd) /\
  700 <= intel_gpu_gen (dev_gpu stale_cmd) /\
  0 <= 1 < 2 /\
  12 <= 13 < 16 /\
  exists c',
    set_viewport_state 600 700 750 16 sse_nan stale_cmd 2
      [sample_viewport; sample_viewport] [sample_scissor; empty_scissor]
      = Ok c' /\
    cmd (bind_state_viewport c') !! 29%nat = Some 0xAAAAAAAA.
Proof.
  assert (H1 : words_fit_uint32 16) by evaluate.
  assert (H2 : gen_supported 600 750 (dev_gpu stale_cmd)) by evaluate.
  assert (H3 : 0 <= 2 <= 16) by lia.
  assert (H4 : cmd_allocated 16 (bind_state_viewport stale_cmd))
    by evaluate.
  assert (H5 : 700 <= intel_gpu_gen (dev_gpu stale_cmd)) by evaluate.
  assert (H6 : 0 <= 1 < 2) by lia.
  assert (H7 : 12 <= 13 < 16) by lia.
  repeat (split; [assumption|]).
  exact (set_viewport_state_slot_padding 600 700 750 16 sse_nan stale_cmd 2
           [sample_viewport; sample_viewport] [sample_scissor; empty_scissor]
           1 13 H1 H2 H3 H4 eq_refl eq_refl H5 H6 H7).
Defined.

Lemma set_viewport_state_idempotent_witness :
  words_fit_uint32 16 /\
  gen_supported 600 750 (dev_gpu stale_cmd) /\
  0 <= 2 <= 16 /\
  cmd_allocated 16 (bind_state_viewport stale_cmd) /\
  exists c',
    set_viewport_state 600 700 750 16 sse_nan stale_cmd 2
      [sample_viewport; sample_viewport] [sample_scissor; wide_scissor]
      = Ok c' /\
    set_viewport_state 600 700 750 16 sse_nan c' 2
      [sample_viewport; sample_viewport] [sample_scissor; wide_scissor]
      = Ok c'.
Proof.
  assert (H1 : words_fit_uint32 16) by evaluate.
  assert (H2 : gen_supported 600 750 (dev_gpu stale_cmd)) by evaluate.
  assert (H3 : 0 <= 2 <= 16) by lia.
  assert (H4 : cmd_allocated 16 (bind_state_viewport stale_cmd))
    by evaluate.
  repeat (split; [assumption|]).
  exact (set_viewport_state_idempotent 600 700 750 16 sse_nan stale_cmd 2
           [sample_viewport; sample_viewport] [sample_scissor; wide_scissor]
           H1 H2 H3 H4 eq_refl eq_refl).
Defined.
